(** * homework_bot: the poll loop of [homework.py], embedded and verified

    The program polls one HTTP endpoint, validates the decoded JSON
    answer, turns the first homework record into a text and sends it
    through a Telegram bot.  Failures are reported once through
    [handle_error], which remembers the messages it has already sent in
    the module-level dictionary [errors_occured].

    Python values are embedded as an inductive type, the dictionary
    [errors_occured] as a [gmap string Z], exceptions as a result type,
    and the functions of the module as computations in a state and
    exception monad whose state is the dictionary together with the
    trace of what the process did to the outside (log lines, calls of
    the bot, sleeps).  What the outside does to the process (clock
    readings, the answer of the endpoint, the behaviour of the bot) is an
    explicit input of every iteration, the [world]. *)

From Stdlib Require Import ZArith DecimalString.
From stdpp Require Import gmap strings list fin_maps.

Set Warnings "-register-all".

Open Scope Z_scope.
Open Scope string_scope.
Open Scope list_scope.

(** ** Values decoded from JSON *)

(** What [response.json()] can return.  A float is kept as the 64 bits of
    its IEEE representation; the program never computes with one. *)
Inductive pyval : Type :=
  | PNone
  | PBool (b : bool)
  | PInt (n : Z)
  | PFloat (bits : Z)
  | PStr (s : string)
  | PList (items : list pyval)
  | PDict (entries : gmap string pyval).

(** [isinstance(v, dict)] and [isinstance(v, list)]. *)
Definition isinstance_dict (v : pyval) : bool :=
  match v with PDict _ => true | _ => false end.

Definition isinstance_list (v : pyval) : bool :=
  match v with PList _ => true | _ => false end.

(** [len(v)], used by the program on dictionaries only. *)
Definition py_len (v : pyval) : Z :=
  match v with
  | PDict d => Z.of_nat (size d)
  | PList l => Z.of_nat (length l)
  | PStr s => Z.of_nat (String.length s)
  | _ => 0
  end.

(** [key in v] for a dictionary [v]. *)
Definition py_in (key : string) (v : pyval) : bool :=
  match v with
  | PDict d => bool_decide (is_Some (d !! key))
  | _ => false
  end.

(** [v.get(key)] for a dictionary [v]: [None] when the key is absent. *)
Definition dict_get (key : string) (v : pyval) : pyval :=
  match v with
  | PDict d => default PNone (d !! key)
  | _ => PNone
  end.

(** The elements of a value known to be a list. *)
Definition list_items (v : pyval) : list pyval :=
  match v with PList l => l | _ => [] end.

(** [type(v).__name__], as it appears in the interpreter's messages. *)
Definition type_name (v : pyval) : string :=
  match v with
  | PNone => "NoneType"
  | PBool _ => "bool"
  | PInt _ => "int"
  | PFloat _ => "float"
  | PStr _ => "str"
  | PList _ => "list"
  | PDict _ => "dict"
  end.

(** ** Exceptions *)

(** The exception classes the program names, the built-in ones above
    them, and [OtherClass] for any further class with its base.  The four
    classes imported from the module [exceptions] derive from
    [Exception]. *)
Inductive exc_class : Type :=
  | BaseException
  | SystemExit
  | Exception
  | OSError
  | ConnectionError
  | ConnectionRefusedError
  | RequestException
  | HTTPError
  | AttributeError
  | TypeError
  | IncorrectResponseException
  | UnknownStatusException
  | TelegramAPIException
  | HomeworkMissingException
  | OtherClass (name : string) (base : exc_class).

#[global] Instance exc_class_eq_dec : EqDecision exc_class.
Proof. solve_decision. Defined.

(** The class followed by its ancestors, nearest first. *)
Fixpoint mro (c : exc_class) : list exc_class :=
  match c with
  | BaseException => [BaseException]
  | SystemExit => [SystemExit; BaseException]
  | Exception => [Exception; BaseException]
  | OSError => [OSError; Exception; BaseException]
  | ConnectionError => [ConnectionError; OSError; Exception; BaseException]
  | ConnectionRefusedError =>
      [ConnectionRefusedError; ConnectionError; OSError; Exception;
       BaseException]
  | RequestException =>
      [RequestException; OSError; Exception; BaseException]
  | HTTPError =>
      [HTTPError; RequestException; OSError; Exception; BaseException]
  | OtherClass _ base => c :: mro base
  | _ => [c; Exception; BaseException]
  end.

Definition issubclass (c d : exc_class) : bool := bool_decide (d ∈ mro c).

(** An exception object: its dynamic type and what [str] gives on it. *)
Record pyexc : Type := mkExc { exc_type : exc_class; exc_str : string }.

(** [isinstance(e, (c1, ..., cn))], the test of an [except] clause. *)
Definition isinstance (e : pyexc) (classes : list exc_class) : bool :=
  existsb (issubclass (exc_type e)) classes.
Arguments isinstance : simpl never.

(** ** The state of the process and what it does to the outside *)

Inductive level : Type := DEBUG | ERROR | CRITICAL.

Inductive event : Type :=
  | Logged (lvl : level) (msg : string)
  | BotSend (chat_id : option string) (text : string) (delivered : bool)
  | Slept (seconds : Z).

Record state : Type := mkState {
  errors_occured : gmap string Z;
  trace : list event
}.

Definition emit (ev : event) (st : state) : state :=
  {| errors_occured := errors_occured st; trace := trace st ++ [ev] |}.

(** The texts handed to the bot, in order, delivered or not. *)
Definition sends (tr : list event) : list string :=
  omap (λ ev, match ev with BotSend _ text _ => Some text | _ => None end) tr.

(** The texts that reached the chat. *)
Definition delivered (tr : list event) : list string :=
  omap (λ ev, match ev with BotSend _ text true => Some text | _ => None end)
       tr.

(** The sleeps of the process, in seconds. *)
Definition sleeps (tr : list event) : list Z :=
  omap (λ ev, match ev with Slept seconds => Some seconds | _ => None end) tr.

(** ** Computations: state and exceptions *)

Inductive result (A : Type) : Type :=
  | Return (a : A)
  | Raise (e : pyexc).
Arguments Return {A} a.
Arguments Raise {A} e.

Definition M (A : Type) : Type := state → result A * state.

#[global] Instance M_ret : MRet M := λ A a st, (Return a, st).

#[global] Instance M_bind : MBind M := λ A B f m st,
  match m st with
  | (Return a, st') => f a st'
  | (Raise e, st') => (Raise e, st')
  end.

Definition raise {A} (e : pyexc) : M A := λ st, (Raise e, st).

Definition tell (ev : event) : M unit := λ st, (Return tt, emit ev st).

(** [try: body except classes1 as e: h1 e ... ]: the first clause whose
    classes match handles the exception; with none, it propagates. *)
Definition try_except {A} (body : M A)
    (clauses : list (list exc_class * (pyexc → M A))) : M A := λ st,
  match body st with
  | (Raise e, st') =>
      match find (λ cl, isinstance e cl.1) clauses with
      | Some cl => cl.2 e st'
      | None => (Raise e, st')
      end
  | r => r
  end.

(** [try: body finally: final]: [final] runs whatever [body] did; an
    exception of [final] replaces the outcome of [body]. *)
Definition try_finally {A} (body : M A) (final : M unit) : M A := λ st,
  match body st with
  | (r, st') =>
      match final st' with
      | (Return _, st'') => (r, st'')
      | (Raise e, st'') => (Raise e, st'')
      end
  end.

Definition logger_debug (msg : string) : M unit := tell (Logged DEBUG msg).
Definition logger_exception (msg : string) : M unit := tell (Logged ERROR msg).
Definition logger_critical (msg : string) : M unit :=
  tell (Logged CRITICAL msg).
Definition time_sleep (seconds : Z) : M unit := tell (Slept seconds).

Definition get_errors : M (gmap string Z) := λ st,
  (Return (errors_occured st), st).

Definition set_errors (cache : gmap string Z) : M unit := λ st,
  (Return tt, {| errors_occured := cache; trace := trace st |}).

(** ** What the outside does in one iteration *)

(** The outcome of [requests.get]: a response with its status code and
    what [response.json()] gives, or an exception. *)
Inductive http_result : Type :=
  | Responded (status_code : Z) (json : result pyval)
  | Failed (error : pyexc).

(** [bot.send_message(chat_id, text)]: [None] when the text is delivered,
    the exception raised otherwise. *)
Definition Bot : Type := option string → string → option pyexc.

(** One iteration's share of the outside: the readings of
    [int(time.time())] at the four places that read the clock, the
    endpoint and the bot. *)
Record world : Type := mkWorld {
  clock_loop : Z;
  clock_fetch : Z;
  requests_get : string → string → Z → http_result;
  bot_of : Bot;
  clock_done : Z;
  clock_error : Z
}.

(** The three environment variables, as [os.getenv] returns them. *)
Record environ : Type := mkEnviron {
  PRACTICUM_TOKEN : option string;
  TELEGRAM_TOKEN : option string;
  TELEGRAM_CHAT_ID : option string
}.

(** The local variables of [main] that live across iterations. *)
Record loop_vars : Type := mkVars {
  current_timestamp : Z;
  cache_cleared : Z
}.

(** ** The module *)

Definition ENDPOINT : string :=
  "https://practicum.yandex.ru/api/user_api/homework_statuses/".

Definition RETRY_PERIOD : Z := 600.
Definition ERROR_CACHE_LIFETIME : Z := 60 * 60 * 24.

Definition HOMEWORK_VERDICTS : gmap string string :=
  <["approved" := "Работа проверена: ревьюеру всё понравилось. Ура!"]>
  (<["reviewing" := "Работа взята на проверку ревьюером."]>
  (<["rejected" := "Работа проверена: у ревьюера есть замечания."]> ∅)).

(** The double quote, for the messages that contain one. *)
Definition dq : string := String (Ascii.ascii_of_nat 34) "".

(** Truth value of an environment variable or of a cached timestamp. *)
Definition truthy_str (v : option string) : bool :=
  match v with Some s => negb (bool_decide (s = "")) | None => false end.

Definition truthy_int (v : option Z) : bool :=
  match v with Some n => negb (bool_decide (n = 0)) | None => false end.

Section Homework.

(** [repr] of the values whose text the embedding does not compute:
    floats and containers. *)
Variable py_repr : pyval → string.

(** The process environment read when the module is loaded. *)
Variable env : environ.

(** [telegram.Bot(token=...)] of the library: [None] when the bot is
    built, the exception raised when the library refuses the token. *)
Variable telegram_Bot : option string → option pyexc.

(** [str(v)], which is also what an f-string puts for [{v}]. *)
Definition py_str (v : pyval) : string :=
  match v with
  | PNone => "None"
  | PBool true => "True"
  | PBool false => "False"
  | PInt n => NilZero.string_of_int (Z.to_int n)
  | PStr s => s
  | _ => py_repr v
  end.

Definition HEADERS : string :=
  "OAuth " +:+ default "None" (PRACTICUM_TOKEN env).

Definition send_message (bot : Bot) (message : string) : M unit :=
  try_except
    (match bot (TELEGRAM_CHAT_ID env) message with
     | None =>
         tell (BotSend (TELEGRAM_CHAT_ID env) message true);;
         logger_debug ("Сообщение " +:+ dq +:+ message +:+ dq
                       +:+ " успешно отправлено")
     | Some error =>
         tell (BotSend (TELEGRAM_CHAT_ID env) message false);;
         raise error
     end)
    [([Exception], λ error,
       let error_message :=
         "Ошибка при отправке сообщения: " +:+ exc_str error in
       logger_exception error_message;;
       raise (mkExc TelegramAPIException error_message))].

(** [current_timestamp or int(time.time())]. *)
Definition from_date (w : world) (current_timestamp : Z) : Z :=
  if bool_decide (current_timestamp = 0) then clock_fetch w
  else current_timestamp.

Definition get_api_answer (w : world) (current_timestamp : Z) : M pyval :=
  let timestamp := from_date w current_timestamp in
  try_except
    (match requests_get w ENDPOINT HEADERS timestamp with
     | Failed error => raise error
     | Responded status_code json =>
         if bool_decide (status_code = 200) then
           match json with
           | Return v => mret v
           | Raise error => raise error
           end
         else raise (mkExc HTTPError "")
     end)
    [([HTTPError; ConnectionRefusedError], λ error,
       let error_message :=
         "Ресурс " +:+ ENDPOINT +:+ " недоступен: " +:+ exc_str error in
       logger_exception error_message;;
       raise (mkExc HTTPError error_message));
     ([Exception], λ error,
       let error_message := "Ошибка при запросе к API: " +:+ exc_str error in
       logger_exception error_message;;
       raise (mkExc Exception error_message))].

Definition check_response (response : pyval) : M (list pyval) :=
  logger_debug "Проверка ответа сервиса на корректность.";;
  if isinstance_dict response
     && negb (bool_decide (py_len response = 0))
     && py_in "homeworks" response
     && py_in "current_date" response
     && isinstance_list (dict_get "homeworks" response)
  then mret (list_items (dict_get "homeworks" response))
  else
    let error_message := "Ответ API не соответствует ожидаемому!" in
    logger_exception error_message;;
    raise (mkExc IncorrectResponseException error_message).

(** [homework.get(key)]: only a dictionary has the method. *)
Definition method_get (key : string) (homework : pyval) : M pyval :=
  if isinstance_dict homework then mret (dict_get key homework)
  else raise (mkExc AttributeError
                ("'" +:+ type_name homework
                 +:+ "' object has no attribute 'get'")).

(** [status in HOMEWORK_VERDICTS]: hashing a list or a dictionary
    raises. *)
Definition in_verdicts (status : pyval) : M bool :=
  match status with
  | PStr s => mret (bool_decide (is_Some (HOMEWORK_VERDICTS !! s)))
  | PList _ | PDict _ =>
      raise (mkExc TypeError
               ("unhashable type: '" +:+ type_name status +:+ "'"))
  | _ => mret false
  end.

(** [HOMEWORK_VERDICTS.get(status)], already as the text an f-string
    puts for it. *)
Definition verdicts_get (status : pyval) : string :=
  match status with
  | PStr s => default "None" (HOMEWORK_VERDICTS !! s)
  | _ => "None"
  end.

Definition parse_status (homework : pyval) : M string :=
  homework_name ← method_get "homework_name" homework;
  homework_status ← method_get "status" homework;
  match homework_name with
  | PNone =>
      raise (mkExc HomeworkMissingException
               ("`homework_name` отсутствует: " +:+ py_str homework_name))
  | _ =>
      known ← in_verdicts homework_status;
      if negb known then
        let error_message :=
          "Получен неизвестный статус домашней работы: "
          +:+ py_str homework_status in
        logger_exception error_message;;
        raise (mkExc UnknownStatusException error_message)
      else
        let verdict := verdicts_get homework_status in
        mret ("Изменился статус проверки работы " +:+ dq
              +:+ py_str homework_name +:+ dq +:+ ". " +:+ verdict)
  end.

Definition check_tokens : M bool :=
  let params :=
    [PRACTICUM_TOKEN env; TELEGRAM_TOKEN env; TELEGRAM_CHAT_ID env] in
  if negb (forallb truthy_str params) then
    logger_critical ("Отсутствует обязательная переменная окружения,"
                     +:+ "Программа принудительно остановлена.");;
    mret false
  else mret true.

Definition handle_error (w : world) (bot : Bot) (message : pyexc) : M unit :=
  if bool_decide (exc_type message = TelegramAPIException) then mret tt
  else
    let message := exc_str message in
    cache ← get_errors;
    let error := cache !! message in
    if negb (truthy_int error) then
      set_errors (<[message := clock_error w]> cache);;
      send_message bot ("[WARNING] " +:+ message)
    else mret tt.

(** The [try] block of the loop of [main]. *)
Definition attempt (w : world) (vars : loop_vars) : M loop_vars :=
  let bot := bot_of w in
  (if bool_decide (clock_loop w - cache_cleared vars > ERROR_CACHE_LIFETIME)
   then set_errors ∅ else mret tt);;
  response ← get_api_answer w (current_timestamp vars);
  homeworks ← check_response response;
  match homeworks with
  | homework :: _ =>
      message ← parse_status homework;
      send_message bot message
  | [] => logger_debug "Нет новых статусов"
  end;;
  mret {| current_timestamp := clock_done w;
          cache_cleared := cache_cleared vars |}.

(** The body of [while True:] in [main]: the [try] block, its [except]
    clause and its [finally] clause. *)
Definition iteration (w : world) (vars : loop_vars) : M loop_vars :=
  let bot := bot_of w in
  try_finally
    (try_except
       (attempt w vars)
       [([Exception], λ error, handle_error w bot error;; mret vars)])
    (time_sleep RETRY_PERIOD).

(** The loop over as many iterations as there are worlds: the variables
    after the last one, or the exception that left the loop. *)
Fixpoint poll (worlds : list world) (vars : loop_vars) : M loop_vars :=
  match worlds with
  | [] => mret vars
  | w :: worlds' => vars' ← iteration w vars; poll worlds' vars'
  end.

(** [main], started when the clock reads [clock_start]. *)
Definition main (clock_start : Z) (worlds : list world) : M loop_vars :=
  available ← check_tokens;
  if negb available then
    logger_critical "Отсутствие обязательных переменных окружения";;
    raise (mkExc SystemExit "Критическая ошибка, бот остановлен!")
  else
    match telegram_Bot (TELEGRAM_TOKEN env) with
    | Some error => raise error
    | None =>
        let current_timestamp := clock_start in
        let cache_cleared := current_timestamp in
        poll worlds {| current_timestamp := current_timestamp;
                       cache_cleared := cache_cleared |}
    end.


End Homework.

(** ** Notions used in the statements *)

(** A computation that neither calls the bot nor writes the dictionary;
    it may log. *)
Definition quiet {A} (m : M A) : Prop :=
  ∀ st, sends (trace (m st).2) = sends (trace st)
        ∧ errors_occured (m st).2 = errors_occured st.

(** The response the specification calls valid: a non-empty keyed
    structure with an items key whose value is a sequence and a
    fetched-at key. *)
Definition valid_response (response : pyval) : Prop :=
  ∃ d items, response = PDict d ∧ d ≠ ∅
             ∧ d !! "homeworks" = Some (PList items)
             ∧ is_Some (d !! "current_date").

(** The state after the first statement of the [try] block: the
    dictionary is emptied
    when the clock is more than [ERROR_CACHE_LIFETIME] past [cache_cleared],
    and nothing else changes. *)
Definition after_check (w : world) (vars : loop_vars) (st : state) : state :=
  if bool_decide (clock_loop w - cache_cleared vars > ERROR_CACHE_LIFETIME)
  then {| errors_occured := ∅; trace := trace st |}
  else st.

(** A computation that leaves an observation of the state as it was. *)
Definition preserves {A X} (obs : state → X) (m : M A) : Prop :=
  ∀ st, obs (m st).2 = obs st.

(** The three environment variables are set and not empty. *)
Definition configured (env : environ) : Prop :=
  ∃ practicum telegram chat,
    PRACTICUM_TOKEN env = Some practicum ∧ practicum ≠ ""
    ∧ TELEGRAM_TOKEN env = Some telegram ∧ telegram ≠ ""
    ∧ TELEGRAM_CHAT_ID env = Some chat ∧ chat ≠ "".

(** The first words of the text [parse_status] returns and of its message
    for an unknown status. *)
Definition status_changed : string := "Изменился статус проверки работы ".
Definition unknown_status : string :=
  "Получен неизвестный статус домашней работы: ".

(** ** Sample inputs *)

(** Stands for [repr] where no float and no container is rendered. *)
Definition repr_unused : pyval → string := λ _, "".

Definition sample_env : environ :=
  mkEnviron (Some "practicum-token") (Some "123456:telegram-token")
    (Some "42").

(** The library builds the bot; the library refuses the token. *)
Definition bot_built : option string → option pyexc := λ _, None.

Definition invalid_token : pyexc :=
  mkExc (OtherClass "InvalidToken" (OtherClass "TelegramError" Exception))
        "Invalid token".

Definition token_refused : option string → option pyexc :=
  λ _, Some invalid_token.

Definition fresh : state := mkState ∅ [].

(** [{"homework_name": "Proj1", "status": "approved"}] *)
Definition homework_proj1 : pyval :=
  PDict (<["homework_name" := PStr "Proj1"]>
         (<["status" := PStr "approved"]> ∅)).

(** [{"status": "approved"}] and [{"homework_name": null, "status": 7}] *)
Definition nameless : gmap string pyval := <["status" := PStr "approved"]> ∅.
Definition null_name : gmap string pyval :=
  <["homework_name" := PNone]> (<["status" := PInt 7]> ∅).

(** The message of the [HTTPError] that [get_api_answer] raises on a
    status code other than 200. *)
Definition unavailable_message : string :=
  "Ресурс " +:+ ENDPOINT +:+ " недоступен: ".

(** The endpoint answers 503 and the bot delivers; every clock reading of
    the iteration is [t]. *)
Definition unavailable (t : Z) : world :=
  mkWorld t t (λ _ _ _, Responded 503 (Return PNone)) (λ _ _, None) t t.

(** The endpoint answers 503 and the bot cannot reach Telegram either. *)
Definition outage (t : Z) : world :=
  mkWorld t t (λ _ _ _, Responded 503 (Return PNone))
    (λ _ _, Some (mkExc (OtherClass "NetworkError"
                           (OtherClass "TelegramError" Exception))
                        "timed out"))
    t t.

(** The endpoint answers [{"homeworks": [], "current_date": 1000}]. *)
Definition no_news : gmap string pyval :=
  <["homeworks" := PList []]> (<["current_date" := PInt 1000]> ∅).

Definition idle (t : Z) : world :=
  mkWorld t t (λ _ _ _, Responded 200 (Return (PDict no_news))) (λ _ _, None)
    t t.

(** The endpoint reports [homework_proj1] approved and the bot cannot
    deliver. *)
Definition undeliverable (t : Z) : world :=
  mkWorld t t
    (λ _ _ _, Responded 200
       (Return (PDict (<["homeworks" := PList [homework_proj1]]>
                       (<["current_date" := PInt 1000]> ∅)))))
    (λ _ _, Some (mkExc (OtherClass "NetworkError"
                           (OtherClass "TelegramError" Exception))
                        "timed out"))
    t t.

(** An exception of a class derived from [TelegramAPIException]. *)
Definition flood : pyexc :=
  mkExc (OtherClass "FloodException" TelegramAPIException) "flood control".

(** [requests.get] raises the [ConnectionError] of [requests], which is
    neither an [HTTPError] nor a [ConnectionRefusedError]. *)
Definition connection_error : pyexc :=
  mkExc (OtherClass "requests.ConnectionError" RequestException)
        "Max retries exceeded".

Definition unreachable (t : Z) : world :=
  mkWorld t t (λ _ _ _, Failed connection_error) (λ _ _, None) t t.

(** The server refuses the connection below [requests]. *)
Definition refused : pyexc :=
  mkExc ConnectionRefusedError "[Errno 111] Connection refused".

Definition refusing (t : Z) : world :=
  mkWorld t t (λ _ _ _, Failed refused) (λ _ _, None) t t.

(** Environments with [TELEGRAM_CHAT_ID] unset and with an empty
    [PRACTICUM_TOKEN]. *)
Definition env_without_chat : environ :=
  mkEnviron (Some "practicum-token") (Some "telegram-token") None.

Definition env_empty_token : environ :=
  mkEnviron (Some "") (Some "telegram-token") (Some "42").

(** [{"homework_name": "Proj1", "status": "burnt"}] and the same record
    with a list for status. *)
Definition burnt : gmap string pyval :=
  <["homework_name" := PStr "Proj1"]> (<["status" := PStr "burnt"]> ∅).

Definition list_status : gmap string pyval :=
  <["homework_name" := PStr "Proj1"]> (<["status" := PList []]> ∅).

(** The endpoint reports [homework_proj1] approved, followed by an item
    that is no record, and the bot delivers. *)
Definition news : gmap string pyval :=
  <["homeworks" := PList [homework_proj1; PInt 3]]>
  (<["current_date" := PInt 1000]> ∅).

Definition approved_news (t : Z) : world :=
  mkWorld t t (λ _ _ _, Responded 200 (Return (PDict news))) (λ _ _, None)
    t t.

(** The endpoint answers [{}]. *)
Definition empty_answer (t : Z) : world :=
  mkWorld t t (λ _ _ _, Responded 200 (Return (PDict ∅))) (λ _ _, None) t t.

(** The endpoint reports a homework with the status [burnt]. *)
Definition burnt_news (t : Z) : world :=
  mkWorld t t
    (λ _ _ _, Responded 200
       (Return (PDict (<["homeworks" := PList [PDict burnt]]>
                       (<["current_date" := PInt 1000]> ∅)))))
    (λ _ _, None) t t.

(** The endpoint answers [{}] and the bot cannot reach Telegram. *)
Definition empty_answer_outage (t : Z) : world :=
  mkWorld t t (λ _ _ _, Responded 200 (Return (PDict ∅)))
    (λ _ _, Some (mkExc (OtherClass "NetworkError"
                           (OtherClass "TelegramError" Exception))
                        "timed out"))
    t t.

(** The state of a process that reported the endpoint unavailable when
    the clock read 1200. *)
Definition reported : state :=
  mkState (<[unavailable_message := 1200]> ∅) [].

(** ** Facts about the building blocks *)

Lemma sends_emit (ev : event) (st : state) :
  sends (trace (emit ev st)) = sends (trace st) ++ sends [ev].
Proof. unfold sends, emit. cbn [trace]. apply omap_app. Qed.

Lemma delivered_emit (ev : event) (st : state) :
  delivered (trace (emit ev st)) = delivered (trace st) ++ delivered [ev].
Proof. unfold delivered, emit. cbn [trace]. apply omap_app. Qed.

Lemma errors_emit (ev : event) (st : state) :
  errors_occured (emit ev st) = errors_occured st.
Proof. reflexivity. Qed.

Lemma issubclass_refl (c : exc_class) : issubclass c c = true.
Proof.
  unfold issubclass. apply bool_decide_eq_true.
  destruct c; simpl; apply list_elem_of_here.
Qed.

#[local] Arguments String.append : simpl never.

(** Unfolds the monad and the primitives down to functions on states. *)
Ltac run :=
  unfold try_finally, try_except, logger_debug, logger_exception,
    logger_critical, time_sleep, tell, raise, get_errors, set_errors,
    mbind, M_bind, mret, M_ret; simpl.

Section Facts.

Context (py_repr : pyval → string) (env : environ).

(** *** [send_message] *)

(** The three ways a call of [send_message] can end. *)
Lemma send_message_delivered (bot : Bot) (text : string) (st : state) :
  bot (TELEGRAM_CHAT_ID env) text = None →
  send_message env bot text st =
    (Return tt,
     emit (Logged DEBUG ("Сообщение " +:+ dq +:+ text +:+ dq
                         +:+ " успешно отправлено"))
       (emit (BotSend (TELEGRAM_CHAT_ID env) text true) st)).
Proof. intros Hbot. unfold send_message. run. rewrite Hbot. reflexivity. Qed.

Lemma send_message_failed (bot : Bot) (text : string) (st : state)
    (err : pyexc) :
  bot (TELEGRAM_CHAT_ID env) text = Some err →
  isinstance err [Exception] = true →
  send_message env bot text st =
    (Raise (mkExc TelegramAPIException
              ("Ошибка при отправке сообщения: " +:+ exc_str err)),
     emit (Logged ERROR ("Ошибка при отправке сообщения: " +:+ exc_str err))
       (emit (BotSend (TELEGRAM_CHAT_ID env) text false) st)).
Proof.
  intros Hbot Hexc. unfold send_message. run. rewrite Hbot. simpl.
  rewrite Hexc. reflexivity.
Qed.

Lemma send_message_interrupted (bot : Bot) (text : string) (st : state)
    (err : pyexc) :
  bot (TELEGRAM_CHAT_ID env) text = Some err →
  isinstance err [Exception] = false →
  send_message env bot text st =
    (Raise err, emit (BotSend (TELEGRAM_CHAT_ID env) text false) st).
Proof.
  intros Hbot Hexc. unfold send_message. run. rewrite Hbot. simpl.
  rewrite Hexc. reflexivity.
Qed.

(** Whatever the bot does, the call is one more entry of [sends] and the
    dictionary is not touched. *)
Lemma send_message_effect (bot : Bot) (text : string) (st : state) :
  sends (trace (send_message env bot text st).2) = sends (trace st) ++ [text]
  ∧ errors_occured (send_message env bot text st).2 = errors_occured st.
Proof.
  destruct (bot (TELEGRAM_CHAT_ID env) text) as [err|] eqn:Hbot.
  - destruct (isinstance err [Exception]) eqn:Hexc.
    + rewrite (send_message_failed _ _ _ _ Hbot Hexc). cbn [fst snd].
      rewrite !sends_emit, !errors_emit. cbn. by rewrite app_nil_r.
    + rewrite (send_message_interrupted _ _ _ _ Hbot Hexc). cbn [fst snd].
      by rewrite !sends_emit, !errors_emit.
  - rewrite (send_message_delivered _ _ _ Hbot). cbn [fst snd].
    rewrite !sends_emit, !errors_emit. cbn. by rewrite app_nil_r.
Qed.

(** An exception that leaves [send_message] and that [except Exception]
    would catch has exactly the type [TelegramAPIException]. *)
Lemma send_message_raises (bot : Bot) (text : string) (st : state)
    (e : pyexc) :
  (send_message env bot text st).1 = Raise e →
  isinstance e [Exception] = true →
  exc_type e = TelegramAPIException.
Proof.
  intros Hres Hexc.
  destruct (bot (TELEGRAM_CHAT_ID env) text) as [err|] eqn:Hbot.
  - destruct (isinstance err [Exception]) eqn:Herr.
    + rewrite (send_message_failed _ _ _ _ Hbot Herr) in Hres.
      simpl in Hres. by inversion Hres.
    + rewrite (send_message_interrupted _ _ _ _ Hbot Herr) in Hres.
      simpl in Hres. inversion Hres; subst. congruence.
  - rewrite (send_message_delivered _ _ _ Hbot) in Hres. discriminate.
Qed.

(** *** [handle_error] *)

(** The two branches of [handle_error] past the type test. *)
Lemma handle_error_unseen (w : world) (bot : Bot) (e : pyexc) (st : state) :
  exc_type e ≠ TelegramAPIException →
  truthy_int (errors_occured st !! exc_str e) = false →
  handle_error env w bot e st =
    send_message env bot ("[WARNING] " +:+ exc_str e)
      {| errors_occured := <[exc_str e := clock_error w]> (errors_occured st);
         trace := trace st |}.
Proof.
  intros Hty Hnew. unfold handle_error.
  rewrite bool_decide_eq_false_2 by done. run. rewrite Hnew. reflexivity.
Qed.

Lemma handle_error_seen (w : world) (bot : Bot) (e : pyexc) (st : state) :
  exc_type e ≠ TelegramAPIException →
  truthy_int (errors_occured st !! exc_str e) = true →
  handle_error env w bot e st = (Return tt, st).
Proof.
  intros Hty Hold. unfold handle_error.
  rewrite bool_decide_eq_false_2 by done. run. rewrite Hold. reflexivity.
Qed.

(** *** Sequencing *)

Lemma bind_return_inv {A B} (m : M A) (f : A → M B) (st st' : state) (b : B) :
  (m ≫= f) st = (Return b, st') →
  ∃ a st1, m st = (Return a, st1) ∧ f a st1 = (Return b, st').
Proof.
  unfold mbind, M_bind. destruct (m st) as [[a|e] st1]; [eauto | discriminate].
Qed.

Lemma bind_raise_inv {A B} (m : M A) (f : A → M B) (st st' : state)
    (e : pyexc) :
  (m ≫= f) st = (Raise e, st') →
  m st = (Raise e, st')
  ∨ ∃ a st1, m st = (Return a, st1) ∧ f a st1 = (Raise e, st').
Proof.
  unfold mbind, M_bind. destruct (m st) as [[a|e1] st1]; intros H.
  - right. eauto.
  - left. by inversion H.
Qed.

Lemma quiet_ret {A} (a : A) : quiet (mret a).
Proof. by intros st. Qed.

Lemma quiet_raise {A} (e : pyexc) : quiet (@raise A e).
Proof. by intros st. Qed.

Lemma quiet_logged (lvl : level) (msg : string) : quiet (tell (Logged lvl msg)).
Proof.
  intros st. unfold tell. cbn [fst snd].
  rewrite sends_emit, errors_emit. cbn. by rewrite app_nil_r.
Qed.

Lemma quiet_bind {A B} (m : M A) (f : A → M B) :
  quiet m → (∀ a, quiet (f a)) → quiet (m ≫= f).
Proof.
  intros Hm Hf st. unfold mbind, M_bind.
  specialize (Hm st). destruct (m st) as [[a|e] st1]; cbn [fst snd] in *.
  - destruct (Hf a st1) as [-> ->]. done.
  - done.
Qed.

Lemma quiet_try_except {A} (body : M A)
    (clauses : list (list exc_class * (pyexc → M A))) :
  quiet body → Forall (λ cl, ∀ e, quiet (cl.2 e)) clauses →
  quiet (try_except body clauses).
Proof.
  intros Hbody Hcl st. unfold try_except.
  specialize (Hbody st). destruct (body st) as [[a|e] st1]; [done|].
  cbn [fst snd] in *.
  destruct (find _ clauses) as [cl|] eqn:Hfind; [|done].
  apply find_some in Hfind as [Hin _]. apply list_elem_of_In in Hin.
  rewrite Forall_forall in Hcl.
  destruct (Hcl cl Hin e st1) as [-> ->]. done.
Qed.

Create HintDb quiet.
#[local] Hint Resolve quiet_ret quiet_raise quiet_logged quiet_bind
  quiet_try_except : quiet.

(** *** [get_api_answer], [check_response], [parse_status] only log *)

Lemma get_api_answer_quiet (w : world) (ts : Z) :
  quiet (get_api_answer env w ts).
Proof.
  unfold get_api_answer, logger_exception.
  apply quiet_try_except.
  - destruct (requests_get _ _ _ _) as [code [v|e]|e]; try case_bool_decide;
      auto with quiet.
  - repeat (constructor; [intros e; cbn [snd]; auto with quiet|]).
    constructor.
Qed.

Lemma check_response_quiet (response : pyval) :
  quiet (check_response response).
Proof.
  unfold check_response, logger_debug, logger_exception.
  apply quiet_bind; [auto with quiet|]. intros _.
  destruct (_ && _); auto with quiet.
Qed.

Lemma method_get_quiet (key : string) (homework : pyval) :
  quiet (method_get key homework).
Proof. unfold method_get. destruct (isinstance_dict _); auto with quiet. Qed.

Lemma in_verdicts_quiet (status : pyval) : quiet (in_verdicts status).
Proof. destruct status; cbn [in_verdicts]; auto with quiet. Qed.

Lemma parse_status_quiet (homework : pyval) :
  quiet (parse_status py_repr homework).
Proof.
  unfold parse_status, logger_exception.
  apply quiet_bind; [apply method_get_quiet|]. intros name.
  apply quiet_bind; [apply method_get_quiet|]. intros status.
  destruct name; auto with quiet;
    (apply quiet_bind; [apply in_verdicts_quiet|]; intros known;
     destruct known; cbn [negb]; auto with quiet).
Qed.

(** *** [check_response] *)

(** The test of [check_response] holds exactly of the valid responses. *)
Lemma check_response_test (response : pyval) :
  isinstance_dict response
  && negb (bool_decide (py_len response = 0))
  && py_in "homeworks" response
  && py_in "current_date" response
  && isinstance_list (dict_get "homeworks" response) = true
  ↔ valid_response response.
Proof.
  split.
  - rewrite !andb_true_iff. intros [[[[Hdict Hlen] Hhw] Hdate] Hlist].
    destruct response as [| | | | | |d]; try discriminate.
    cbn [py_len py_in dict_get] in *.
    apply bool_decide_eq_true in Hhw as [v Hv], Hdate.
    rewrite Hv in Hlist. cbn [default] in Hlist.
    destruct v as [| | | | |items|]; try discriminate.
    exists d, items. repeat split; try done.
    intros ->. by rewrite lookup_empty in Hv.
  - intros (d & items & -> & Hne & Hhw & Hdate).
    cbn [isinstance_dict py_len py_in dict_get]. rewrite Hhw. cbn [default].
    rewrite !andb_true_iff. repeat split.
    + apply negb_true_iff, bool_decide_eq_false.
      intros Hsize. apply Hne, map_size_empty_iff. lia.
    + by apply bool_decide_eq_true.
Qed.

(** *** [iteration] *)

(** What [attempt] returns when it returns. *)
Lemma attempt_returns (w : world) (vars vars' : loop_vars) (st st' : state) :
  attempt py_repr env w vars st = (Return vars', st') →
  vars' = {| current_timestamp := clock_done w;
             cache_cleared := cache_cleared vars |}.
Proof.
  unfold attempt. intros Hrun.
  apply bind_return_inv in Hrun as (_ & st1 & _ & Hrun).
  apply bind_return_inv in Hrun as (response & st2 & _ & Hrun).
  apply bind_return_inv in Hrun as (homeworks & st3 & _ & Hrun).
  apply bind_return_inv in Hrun as (_ & st4 & _ & Hrun).
  by inversion Hrun.
Qed.

Lemma quiet_run {A} (m : M A) (st st' : state) (r : result A) :
  quiet m → m st = (r, st') →
  sends (trace st') = sends (trace st)
  ∧ errors_occured st' = errors_occured st.
Proof. intros Hq Hrun. specialize (Hq st). by rewrite Hrun in Hq. Qed.

Lemma check_runs (w : world) (vars : loop_vars) (st : state) :
  (if bool_decide (clock_loop w - cache_cleared vars > ERROR_CACHE_LIFETIME)
   then set_errors ∅ else mret tt) st = (Return tt, after_check w vars st).
Proof. unfold after_check. by case_bool_decide. Qed.

(** An exception that leaves [attempt] and that the loop catches and
    reports was raised before the bot was called: since the check, the
    process has only logged. *)
Lemma attempt_raises (w : world) (vars : loop_vars) (st st' : state)
    (e : pyexc) :
  attempt py_repr env w vars st = (Raise e, st') →
  isinstance e [Exception] = true →
  exc_type e ≠ TelegramAPIException →
  sends (trace st') = sends (trace (after_check w vars st))
  ∧ errors_occured st' = errors_occured (after_check w vars st).
Proof.
  unfold attempt. intros Hrun Hexc Hty.
  apply bind_raise_inv in Hrun as [Hrun|([] & st0 & Hcheck & Hrun)].
  { by rewrite check_runs in Hrun. }
  rewrite check_runs in Hcheck. simplify_eq.
  apply bind_raise_inv in Hrun as [Hrun|(response & st1 & Hget & Hrun)].
  { eapply quiet_run; [apply get_api_answer_quiet | done]. }
  apply (quiet_run _ _ _ _ (get_api_answer_quiet _ _)) in Hget as [<- <-].
  apply bind_raise_inv in Hrun as [Hrun|(homeworks & st2 & Hchk & Hrun)].
  { eapply quiet_run; [apply check_response_quiet | done]. }
  apply (quiet_run _ _ _ _ (check_response_quiet _)) in Hchk as [<- <-].
  apply bind_raise_inv in Hrun as [Hrun|([] & st3 & _ & Hrun)];
    [|discriminate].
  destruct homeworks as [|homework rest].
  { discriminate. }
  apply bind_raise_inv in Hrun as [Hrun|(message & st3 & Hparse & Hrun)].
  { eapply quiet_run; [apply parse_status_quiet | done]. }
  exfalso. apply Hty.
  eapply (send_message_raises (bot_of w) message st3); [|done].
  by rewrite Hrun.
Qed.

(** The three ways an iteration continues after its [try] block. *)
Lemma iteration_after_return (w : world) (vars vars' : loop_vars)
    (st st' : state) :
  attempt py_repr env w vars st = (Return vars', st') →
  iteration py_repr env w vars st
  = (Return vars', emit (Slept RETRY_PERIOD) st').
Proof. intros Hrun. unfold iteration. run. by rewrite Hrun. Qed.

Lemma iteration_after_caught (w : world) (vars : loop_vars) (st st' : state)
    (e : pyexc) :
  attempt py_repr env w vars st = (Raise e, st') →
  isinstance e [Exception] = true →
  iteration py_repr env w vars st
  = (match (handle_error env w (bot_of w) e st').1 with
     | Return _ => Return vars
     | Raise e' => Raise e'
     end,
     emit (Slept RETRY_PERIOD) (handle_error env w (bot_of w) e st').2).
Proof.
  intros Hrun Hexc. unfold iteration. run. rewrite Hrun. cbn. rewrite Hexc.
  cbn [snd].
  by destruct (handle_error env w (bot_of w) e st') as [[[]|e'] st''].
Qed.

Lemma iteration_after_uncaught (w : world) (vars : loop_vars)
    (st st' : state) (e : pyexc) :
  attempt py_repr env w vars st = (Raise e, st') →
  isinstance e [Exception] = false →
  iteration py_repr env w vars st = (Raise e, emit (Slept RETRY_PERIOD) st').
Proof.
  intros Hrun Hexc. unfold iteration. run. rewrite Hrun. cbn.
  by rewrite Hexc.
Qed.

(** No iteration assigns [cache_cleared]. *)
Lemma iteration_keeps_cache_cleared (w : world) (vars vars' : loop_vars)
    (st st' : state) :
  iteration py_repr env w vars st = (Return vars', st') →
  cache_cleared vars' = cache_cleared vars.
Proof.
  intros Hrun.
  destruct (attempt py_repr env w vars st) as [[v|e] st1] eqn:Hatt.
  - rewrite (iteration_after_return _ _ _ _ _ Hatt) in Hrun.
    apply attempt_returns in Hatt. inversion Hrun; subst. done.
  - destruct (isinstance e [Exception]) eqn:Hexc.
    + rewrite (iteration_after_caught _ _ _ _ _ Hatt Hexc) in Hrun.
      destruct (handle_error _ _ _ _ _).1; by inversion Hrun.
    + by rewrite (iteration_after_uncaught _ _ _ _ _ Hatt Hexc) in Hrun.
Qed.

Lemma poll_keeps_cache_cleared (worlds : list world) (vars vars' : loop_vars)
    (st st' : state) :
  poll py_repr env worlds vars st = (Return vars', st') →
  cache_cleared vars' = cache_cleared vars.
Proof.
  revert vars st. induction worlds as [|w worlds IH]; intros vars st Hrun.
  - by inversion Hrun.
  - cbn [poll] in Hrun.
    apply bind_return_inv in Hrun as (vars1 & st1 & Hiter & Hrun).
    apply IH in Hrun. apply iteration_keeps_cache_cleared in Hiter.
    congruence.
Qed.

(** ** The error deduplicator *)

(** C5. An error whose type is [TelegramAPIException], the type of every
    delivery failure [send_message] reports, passes through [handle_error]
    without a trace: the dictionary and the trace are as before, so nothing
    is recorded and the bot is not called.  In the loop, an iteration whose
    [try] block ends in such an error only sleeps afterwards. *)
Theorem delivery_error_never_cached :
  (∀ (w : world) (bot : Bot) (text : string) (st : state),
     handle_error env w bot (mkExc TelegramAPIException text) st
     = (Return tt, st))
  ∧ (∀ (w : world) (vars : loop_vars) (st st' : state) (e : pyexc),
       attempt py_repr env w vars st = (Raise e, st') →
       exc_type e = TelegramAPIException →
       iteration py_repr env w vars st
       = (Return vars, emit (Slept RETRY_PERIOD) st')).
Proof.
  split; [reflexivity|]. intros w vars st st' [ty text] Hrun Hty.
  cbn [exc_type] in Hty. subst ty.
  by rewrite (iteration_after_caught _ _ _ _ _ Hrun).
Qed.

(** C9. The type test of [handle_error] is an equality of types.  An error
    whose type is a proper subclass of [TelegramAPIException] is handled
    as an [Exception] with the same text is: when the text is not in the
    dictionary it is recorded with the clock reading and the warning is
    handed to the bot. *)
Theorem subclass_of_delivery_error_is_reported (w : world) (bot : Bot)
    (e : pyexc) (st : state) :
  issubclass (exc_type e) TelegramAPIException = true →
  exc_type e ≠ TelegramAPIException →
  truthy_int (errors_occured st !! exc_str e) = false →
  handle_error env w bot e st
  = handle_error env w bot (mkExc Exception (exc_str e)) st
  ∧ errors_occured (handle_error env w bot e st).2
    = <[exc_str e := clock_error w]> (errors_occured st)
  ∧ sends (trace (handle_error env w bot e st).2)
    = sends (trace st) ++ ["[WARNING] " +:+ exc_str e].
Proof.
  intros _ Hty Hnew. split.
  - rewrite (handle_error_unseen _ _ _ _ Hty Hnew).
    by rewrite (handle_error_unseen w bot (mkExc Exception (exc_str e)) st).
  - rewrite (handle_error_unseen _ _ _ _ Hty Hnew).
    destruct (send_message_effect bot ("[WARNING] " +:+ exc_str e)
      {| errors_occured := <[exc_str e := clock_error w]> (errors_occured st);
         trace := trace st |}) as [Hsends Herrors].
    by rewrite Hsends, Herrors.
Qed.

(** C10. [handle_error] writes the dictionary before it calls the bot.
    When the bot then fails, [handle_error] ends in an exception, the text
    is in the dictionary with the clock reading, nothing reached the chat,
    and (the reading being non-zero) any later call with the same error
    returns at once without calling the bot. *)
Theorem failed_warning_stays_recorded (w : world) (bot : Bot) (e err : pyexc)
    (st : state) :
  exc_type e ≠ TelegramAPIException →
  truthy_int (errors_occured st !! exc_str e) = false →
  bot (TELEGRAM_CHAT_ID env) ("[WARNING] " +:+ exc_str e) = Some err →
  clock_error w ≠ 0 →
  let after := handle_error env w bot e st in
  (∃ raised, after.1 = Raise raised)
  ∧ errors_occured after.2 !! exc_str e = Some (clock_error w)
  ∧ delivered (trace after.2) = delivered (trace st)
  ∧ ∀ (w' : world) (bot' : Bot),
      handle_error env w' bot' e after.2 = (Return tt, after.2).
Proof.
  intros Hty Hnew Hbot Hclock after.
  assert (Herr : errors_occured after.2 !! exc_str e = Some (clock_error w)).
  { unfold after. rewrite (handle_error_unseen _ _ _ _ Hty Hnew).
    destruct (send_message_effect bot ("[WARNING] " +:+ exc_str e)
      {| errors_occured := <[exc_str e := clock_error w]> (errors_occured st);
         trace := trace st |}) as [_ ->].
    cbn [errors_occured]. apply lookup_insert_eq. }
  repeat split.
  - unfold after. rewrite (handle_error_unseen _ _ _ _ Hty Hnew).
    destruct (isinstance err [Exception]) eqn:Hexc.
    + rewrite (send_message_failed _ _ _ _ Hbot Hexc). eauto.
    + rewrite (send_message_interrupted _ _ _ _ Hbot Hexc). eauto.
  - done.
  - unfold after. rewrite (handle_error_unseen _ _ _ _ Hty Hnew).
    destruct (isinstance err [Exception]) eqn:Hexc.
    + rewrite (send_message_failed _ _ _ _ Hbot Hexc). cbn [snd].
      rewrite !delivered_emit. cbn. by rewrite !app_nil_r.
    + rewrite (send_message_interrupted _ _ _ _ Hbot Hexc). cbn [snd].
      rewrite !delivered_emit. cbn. by rewrite !app_nil_r.
  - intros w' bot'. apply handle_error_seen; [done|].
    rewrite Herr. cbn. by rewrite bool_decide_eq_false_2.
Qed.

(** ** The validator and the interpreter *)

(** C6. [check_response] returns exactly on the valid responses, and then
    returns the list stored under the key [homeworks] as it is; on every
    other value it raises [IncorrectResponseException].  Either way the
    response is only read, and the call leaves the dictionary of errors
    and the bot alone. *)
Theorem check_response_spec (response : pyval) (st : state) :
  match (check_response response st).1 with
  | Return items =>
      valid_response response ∧ dict_get "homeworks" response = PList items
  | Raise e =>
      ¬ valid_response response
      ∧ e = mkExc IncorrectResponseException
              "Ответ API не соответствует ожидаемому!"
  end
  ∧ errors_occured (check_response response st).2 = errors_occured st
  ∧ sends (trace (check_response response st).2) = sends (trace st).
Proof.
  split; [|by destruct (check_response_quiet response st)].
  unfold check_response. run.
  destruct (_ && _) eqn:Htest; cbn [fst].
  - apply check_response_test in Htest. split; [done|].
    destruct Htest as (d & items & -> & _ & Hhw & _).
    cbn [dict_get]. by rewrite Hhw.
  - split; [|done]. intros Hvalid.
    apply check_response_test in Hvalid. congruence.
Qed.

(** C7. On a record without the key [homework_name], or with [None] under
    it, [parse_status] raises [HomeworkMissingException], whatever the
    record holds under [status], and does nothing else. *)
Theorem missing_name_takes_precedence (d : gmap string pyval) (st : state) :
  d !! "homework_name" = None ∨ d !! "homework_name" = Some PNone →
  parse_status py_repr (PDict d) st
  = (Raise (mkExc HomeworkMissingException
              "`homework_name` отсутствует: None"), st).
Proof.
  intros Hname. unfold parse_status, method_get. run.
  by destruct Hname as [-> | ->].
Qed.

(** C8, as the code has it.  On a record whose name is a string and whose
    status is a key of [HOMEWORK_VERDICTS], [parse_status] returns the
    text [Изменился статус проверки работы "name". verdict] with the
    verdict stored under the status, and does nothing else; for
    [homework_proj1] the verdict is the one of [approved]. *)
Theorem parse_status_formats_verdict :
  (∀ (d : gmap string pyval) (name status verdict : string) (st : state),
     d !! "homework_name" = Some (PStr name) →
     d !! "status" = Some (PStr status) →
     HOMEWORK_VERDICTS !! status = Some verdict →
     parse_status py_repr (PDict d) st
     = (Return ("Изменился статус проверки работы " +:+ dq +:+ name +:+ dq
                +:+ ". " +:+ verdict), st))
  ∧ (parse_status py_repr homework_proj1 fresh).1
    = Return ("Изменился статус проверки работы " +:+ dq +:+ "Proj1" +:+ dq
              +:+ ". Работа проверена: ревьюеру всё понравилось. Ура!").
Proof.
  assert (Hgen : ∀ (d : gmap string pyval) (name status verdict : string)
                   (st : state),
     d !! "homework_name" = Some (PStr name) →
     d !! "status" = Some (PStr status) →
     HOMEWORK_VERDICTS !! status = Some verdict →
     parse_status py_repr (PDict d) st
     = (Return ("Изменился статус проверки работы " +:+ dq +:+ name +:+ dq
                +:+ ". " +:+ verdict), st)).
  { intros d name status verdict st Hname Hstatus Hverdict.
    unfold parse_status, method_get, in_verdicts, verdicts_get. run.
    rewrite Hname, Hstatus. cbn. rewrite Hverdict. reflexivity. }
  split; [exact Hgen|].
  unfold homework_proj1. by erewrite Hgen.
Qed.

(** ** The loop *)

Lemma get_api_answer_ok (w : world) (ts : Z) (v : pyval) (st : state) :
  requests_get w ENDPOINT (HEADERS env) (from_date w ts)
  = Responded 200 (Return v) →
  get_api_answer env w ts st = (Return v, st).
Proof. intros Hget. unfold get_api_answer. run. by rewrite Hget. Qed.

Lemma check_response_accepts (d : gmap string pyval) (items : list pyval)
    (st : state) :
  d !! "homeworks" = Some (PList items) →
  is_Some (d !! "current_date") →
  check_response (PDict d) st
  = (Return items,
     emit (Logged DEBUG "Проверка ответа сервиса на корректность.") st).
Proof.
  intros Hhw Hdate.
  assert (Hvalid : valid_response (PDict d)).
  { exists d, items. repeat split; try done.
    intros ->. by rewrite lookup_empty in Hhw. }
  apply check_response_test in Hvalid.
  unfold check_response. rewrite Hvalid. run. by rewrite Hhw.
Qed.

(** After an exception in the [try] block the iteration either returns
    the variables as they were or ends in an exception itself. *)
Lemma iteration_after_raise (w : world) (vars : loop_vars) (st st' : state)
    (e : pyexc) :
  attempt py_repr env w vars st = (Raise e, st') →
  match (iteration py_repr env w vars st).1 with
  | Return vars' => vars' = vars
  | Raise _ => True
  end.
Proof.
  intros Hatt. destruct (isinstance e [Exception]) eqn:Hexc.
  - rewrite (iteration_after_caught _ _ _ _ _ Hatt Hexc). cbn [fst].
    by destruct (handle_error _ _ _ _ _).1.
  - by rewrite (iteration_after_uncaught _ _ _ _ _ Hatt Hexc).
Qed.

(** C4. In an iteration, an exception raised by [get_api_answer], by
    [check_response], by [parse_status] on the first homework or by
    [send_message] on its text leaves [current_timestamp] as it was: the
    iteration returns the variables unchanged, or ends in an exception
    itself.  When [check_response] returns an empty list, and when
    [send_message] returns, the iteration returns with [current_timestamp]
    at the clock reading. *)
Theorem cursor_advances_only_on_success (w : world) (vars : loop_vars)
    (st : state) :
  let ts := current_timestamp vars in
  let st0 := after_check w vars st in
  let kept :=
    match (iteration py_repr env w vars st).1 with
    | Return vars' => vars' = vars
    | Raise _ => True
    end in
  let advanced :=
    (iteration py_repr env w vars st).1
    = Return {| current_timestamp := clock_done w;
                cache_cleared := cache_cleared vars |} in
  (∀ e st1, get_api_answer env w ts st0 = (Raise e, st1) → kept)
  ∧ (∀ response st1 e st2,
       get_api_answer env w ts st0 = (Return response, st1) →
       check_response response st1 = (Raise e, st2) →
       kept)
  ∧ (∀ response st1 homework others st2 e st3,
       get_api_answer env w ts st0 = (Return response, st1) →
       check_response response st1 = (Return (homework :: others), st2) →
       parse_status py_repr homework st2 = (Raise e, st3) →
       kept)
  ∧ (∀ response st1 homework others st2 message st3 e st4,
       get_api_answer env w ts st0 = (Return response, st1) →
       check_response response st1 = (Return (homework :: others), st2) →
       parse_status py_repr homework st2 = (Return message, st3) →
       send_message env (bot_of w) message st3 = (Raise e, st4) →
       kept)
  ∧ (∀ response st1 st2,
       get_api_answer env w ts st0 = (Return response, st1) →
       check_response response st1 = (Return [], st2) →
       advanced)
  ∧ (∀ response st1 homework others st2 message st3 st4,
       get_api_answer env w ts st0 = (Return response, st1) →
       check_response response st1 = (Return (homework :: others), st2) →
       parse_status py_repr homework st2 = (Return message, st3) →
       send_message env (bot_of w) message st3 = (Return tt, st4) →
       advanced).
Proof.
  intros ts st0 kept advanced. unfold kept, advanced, ts, st0.
  repeat split.
  - intros e st1 Hget. eapply iteration_after_raise.
    unfold attempt. cbv zeta.
    unfold mbind at 1, M_bind at 1. rewrite check_runs.
    unfold mbind at 1, M_bind at 1. rewrite Hget. reflexivity.
  - intros response st1 e st2 Hget Hchk. eapply iteration_after_raise.
    unfold attempt. cbv zeta.
    unfold mbind at 1, M_bind at 1. rewrite check_runs.
    unfold mbind at 1, M_bind at 1. rewrite Hget.
    unfold mbind at 1, M_bind at 1. rewrite Hchk. reflexivity.
  - intros response st1 homework others st2 e st3 Hget Hchk Hparse.
    eapply iteration_after_raise.
    unfold attempt. cbv zeta.
    unfold mbind at 1, M_bind at 1. rewrite check_runs.
    unfold mbind at 1, M_bind at 1. rewrite Hget.
    unfold mbind at 1, M_bind at 1. rewrite Hchk.
    unfold mbind at 1, M_bind at 1. unfold mbind at 1, M_bind at 1.
    rewrite Hparse. reflexivity.
  - intros response st1 homework others st2 message st3 e st4
      Hget Hchk Hparse Hsend.
    eapply iteration_after_raise.
    unfold attempt. cbv zeta.
    unfold mbind at 1, M_bind at 1. rewrite check_runs.
    unfold mbind at 1, M_bind at 1. rewrite Hget.
    unfold mbind at 1, M_bind at 1. rewrite Hchk.
    unfold mbind at 1, M_bind at 1. unfold mbind at 1, M_bind at 1.
    rewrite Hparse, Hsend. reflexivity.
  - intros response st1 st2 Hget Hchk.
    erewrite iteration_after_return; [reflexivity|].
    unfold attempt. cbv zeta.
    unfold mbind at 1, M_bind at 1. rewrite check_runs.
    unfold mbind at 1, M_bind at 1. rewrite Hget.
    unfold mbind at 1, M_bind at 1. rewrite Hchk. reflexivity.
  - intros response st1 homework others st2 message st3 st4
      Hget Hchk Hparse Hsend.
    erewrite iteration_after_return; [reflexivity|].
    unfold attempt. cbv zeta.
    unfold mbind at 1, M_bind at 1. rewrite check_runs.
    unfold mbind at 1, M_bind at 1. rewrite Hget.
    unfold mbind at 1, M_bind at 1. rewrite Hchk.
    unfold mbind at 1, M_bind at 1. unfold mbind at 1, M_bind at 1.
    rewrite Hparse, Hsend. reflexivity.
Qed.

End Facts.

(** ** The claims on concrete runs *)

(** C1. The endpoint is down and so is Telegram: the first iteration's
    [HTTPError] is caught and passed to [handle_error], whose own call of
    [send_message] raises [TelegramAPIException] inside the [except]
    clause.  Nothing catches it: [main] ends with that exception after one
    sleep, and the second iteration never runs. *)
Theorem failed_warning_ends_the_loop :
  let run :=
    main repr_unused sample_env bot_built 1000
      [outage 1600; unavailable 2200] fresh in
  run.1 = Raise (mkExc TelegramAPIException
                   "Ошибка при отправке сообщения: timed out")
  ∧ sends (trace run.2) = ["[WARNING] " +:+ unavailable_message]
  ∧ delivered (trace run.2) = []
  ∧ sleeps (trace run.2) = [RETRY_PERIOD].
Proof. vm_compute. done. Qed.

(** C2. [main] started at 1000; the endpoint is down at 87401 and at 88001.
    The first of the two iterations finds the dictionary older than
    [ERROR_CACHE_LIFETIME], empties it and records the error at 87401, but
    leaves [cache_cleared] at 1000.  The next iteration, 600 seconds later,
    therefore empties the dictionary again, and the warning recorded ten
    minutes before is sent a second time. *)
Theorem cache_cleared_is_never_reset :
  let vars := {| current_timestamp := 1000; cache_cleared := 1000 |} in
  let first :=
    iteration repr_unused sample_env (unavailable 87401) vars fresh in
  let both :=
    poll repr_unused sample_env [unavailable 87401; unavailable 88001] vars
      fresh in
  first.1 = Return vars
  ∧ errors_occured first.2 !! unavailable_message = Some 87401
  ∧ errors_occured (after_check (unavailable 88001) vars first.2) = ∅
  ∧ both.1 = Return vars
  ∧ sends (trace both.2)
    = ["[WARNING] " +:+ unavailable_message;
       "[WARNING] " +:+ unavailable_message].
Proof. vm_compute. done. Qed.

(** C3. The endpoint is down in two iterations 600 seconds apart and the
    bot delivers.  In the first day of the process the second warning is
    suppressed: one text reaches the chat.  With the process started at
    1000 and the two iterations at 87401 and 88001, each iteration finds
    the dictionary older than [ERROR_CACHE_LIFETIME], since [cache_cleared]
    is still 1000, and empties it: the same warning reaches the chat
    twice within ten minutes. *)
Theorem same_warning_delivered_twice :
  let vars := {| current_timestamp := 1000; cache_cleared := 1000 |} in
  let early :=
    poll repr_unused sample_env [unavailable 1600; unavailable 2200] vars
      fresh in
  let late :=
    poll repr_unused sample_env [unavailable 87401; unavailable 88001] vars
      fresh in
  delivered (trace early.2) = ["[WARNING] " +:+ unavailable_message]
  ∧ delivered (trace late.2)
    = ["[WARNING] " +:+ unavailable_message;
       "[WARNING] " +:+ unavailable_message]
  ∧ 88001 - 87401 < ERROR_CACHE_LIFETIME.
Proof. vm_compute. done. Qed.

Lemma delivery_error_never_cached_witness :
  iteration repr_unused sample_env (undeliverable 2000)
    {| current_timestamp := 1000; cache_cleared := 1000 |} fresh
  = (Return {| current_timestamp := 1000; cache_cleared := 1000 |},
     emit (Slept RETRY_PERIOD)
       (attempt repr_unused sample_env (undeliverable 2000)
          {| current_timestamp := 1000; cache_cleared := 1000 |} fresh).2).
Proof.
  eapply (proj2 (delivery_error_never_cached repr_unused sample_env)).
  - vm_compute. reflexivity.
  - reflexivity.
Defined.

Lemma subclass_of_delivery_error_is_reported_witness :
  let after :=
    handle_error sample_env (unavailable 2000) (λ _ _, None) flood fresh in
  after = handle_error sample_env (unavailable 2000) (λ _ _, None)
            (mkExc Exception "flood control") fresh
  ∧ errors_occured after.2 = <["flood control" := 2000]> ∅
  ∧ sends (trace after.2) = ["[WARNING] flood control"].
Proof.
  apply (subclass_of_delivery_error_is_reported sample_env (unavailable 2000)
           (λ _ _, None) flood fresh).
  - vm_compute. reflexivity.
  - vm_compute. discriminate.
  - reflexivity.
Defined.

Lemma failed_warning_stays_recorded_witness :
  let e := mkExc HTTPError unavailable_message in
  let w := outage 2000 in
  let after := handle_error sample_env w (bot_of w) e fresh in
  (∃ raised, after.1 = Raise raised)
  ∧ errors_occured after.2 !! exc_str e = Some 2000
  ∧ delivered (trace after.2) = []
  ∧ ∀ (w' : world) (bot' : Bot),
      handle_error sample_env w' bot' e after.2 = (Return tt, after.2).
Proof.
  intros e w.
  eapply (failed_warning_stays_recorded sample_env w (bot_of w) e).
  - vm_compute. discriminate.
  - reflexivity.
  - reflexivity.
  - vm_compute. discriminate.
Defined.

Lemma cursor_advances_only_on_success_witness :
  let vars := {| current_timestamp := 1000; cache_cleared := 1000 |} in
  let run (w : world) := (iteration repr_unused sample_env w vars fresh).1 in
  let kept (w : world) :=
    match run w with Return vars' => vars' = vars | Raise _ => True end in
  let advanced (w : world) :=
    run w = Return {| current_timestamp := clock_done w;
                      cache_cleared := cache_cleared vars |} in
  kept (unavailable 1600) ∧ kept (empty_answer 1600)
  ∧ kept (burnt_news 1600) ∧ kept (undeliverable 1600)
  ∧ advanced (idle 1600) ∧ advanced (approved_news 1600).
Proof.
  intros vars run kept advanced. subst run kept advanced. cbv beta.
  refine (conj _ (conj _ (conj _ (conj _ (conj _ _))))).
  - eapply (proj1 (cursor_advances_only_on_success repr_unused sample_env
                     (unavailable 1600) vars fresh)).
    vm_compute; reflexivity.
  - eapply (proj1 (proj2 (cursor_advances_only_on_success repr_unused
                            sample_env (empty_answer 1600) vars fresh)));
      vm_compute; reflexivity.
  - eapply (proj1 (proj2 (proj2 (cursor_advances_only_on_success repr_unused
                                   sample_env (burnt_news 1600) vars
                                   fresh))));
      vm_compute; reflexivity.
  - eapply (proj1 (proj2 (proj2 (proj2
              (cursor_advances_only_on_success repr_unused sample_env
                 (undeliverable 1600) vars fresh)))));
      vm_compute; reflexivity.
  - eapply (proj1 (proj2 (proj2 (proj2 (proj2
              (cursor_advances_only_on_success repr_unused sample_env
                 (idle 1600) vars fresh))))));
      vm_compute; reflexivity.
  - eapply (proj2 (proj2 (proj2 (proj2 (proj2
              (cursor_advances_only_on_success repr_unused sample_env
                 (approved_news 1600) vars fresh))))));
      vm_compute; reflexivity.
Defined.

Lemma missing_name_takes_precedence_witness :
  parse_status repr_unused (PDict nameless) fresh
  = (Raise (mkExc HomeworkMissingException
              "`homework_name` отсутствует: None"), fresh)
  ∧ parse_status repr_unused (PDict null_name) fresh
    = (Raise (mkExc HomeworkMissingException
                "`homework_name` отсутствует: None"), fresh).
Proof.
  split; apply missing_name_takes_precedence; [left | right]; reflexivity.
Defined.

(** C8 as stated fails on its own example: the text [parse_status]
    returns for [homework_proj1] does not begin with [Changed status of]. *)
Lemma parse_status_text_is_not_english :
  (parse_status repr_unused homework_proj1 fresh).1
  ≠ Return ("Changed status of " +:+ dq +:+ "Proj1" +:+ dq
            +:+ ". Работа проверена: ревьюеру всё понравилось. Ура!").
Proof. vm_compute. discriminate. Qed.

Lemma parse_status_formats_verdict_witness :
  parse_status repr_unused
    (PDict (<["homework_name" := PStr "Proj2"]>
            (<["status" := PStr "rejected"]> ∅))) fresh
  = (Return ("Изменился статус проверки работы " +:+ dq +:+ "Proj2" +:+ dq
             +:+ ". " +:+ "Работа проверена: у ревьюера есть замечания."),
     fresh).
Proof.
  apply (proj1 (parse_status_formats_verdict repr_unused)) with "rejected";
    reflexivity.
Defined.

(** * The rest of the module *)

(** ** Classes *)

Lemma mro_closed (c d x : exc_class) : d ∈ mro c → x ∈ mro d → x ∈ mro c.
Proof.
  revert d x. induction c; intros d x Hd Hx; cbn [mro] in *;
    try (set_unfold; destruct_or!; subst; cbn [mro] in Hx; set_unfold; tauto).
  apply elem_of_cons in Hd as [->|Hd].
  - done.
  - apply elem_of_cons. right. eauto.
Qed.

Lemma issubclass_trans (c d x : exc_class) :
  issubclass c d = true → issubclass d x = true → issubclass c x = true.
Proof.
  unfold issubclass. rewrite !bool_decide_eq_true. apply mro_closed.
Qed.

(** What the first [except] clause of [get_api_answer] catches, the
    clause [except Exception] catches as well. *)
Lemma transport_error_is_Exception (e : pyexc) :
  isinstance e [HTTPError; ConnectionRefusedError] = true →
  isinstance e [Exception] = true.
Proof.
  unfold isinstance. cbn [existsb]. rewrite !orb_false_r, orb_true_iff.
  intros [H|H]; eapply issubclass_trans; try exact H; by vm_compute.
Qed.

Section Coverage.

Context (py_repr : pyval → string) (env : environ).
Context (telegram_Bot : option string → option pyexc).

(** ** [get_api_answer] *)

(** What [get_api_answer] does with an exception [err] raised in its
    [try] block, by [requests.get] or by [response.json()]. *)
Lemma get_api_answer_on_error (w : world) (ts : Z) (err : pyexc)
    (st : state) :
  requests_get w ENDPOINT (HEADERS env) (from_date w ts) = Failed err
  ∨ requests_get w ENDPOINT (HEADERS env) (from_date w ts)
    = Responded 200 (Raise err) →
  get_api_answer env w ts st
  = if isinstance err [HTTPError; ConnectionRefusedError] then
      (Raise (mkExc HTTPError (unavailable_message +:+ exc_str err)),
       emit (Logged ERROR (unavailable_message +:+ exc_str err)) st)
    else if isinstance err [Exception] then
      (Raise (mkExc Exception ("Ошибка при запросе к API: " +:+ exc_str err)),
       emit (Logged ERROR ("Ошибка при запросе к API: " +:+ exc_str err)) st)
    else (Raise err, st).
Proof.
  intros Hget. unfold get_api_answer. cbv zeta. unfold try_except.
  destruct (isinstance err [HTTPError; ConnectionRefusedError]) eqn:Hfirst;
    [|destruct (isinstance err [Exception]) eqn:Hsecond];
    destruct Hget as [-> | ->];
    try change (bool_decide (200 = 200)) with true;
    cbn; rewrite Hfirst; try rewrite Hsecond; reflexivity.
Qed.

(** X1. [get_api_answer] returns a value exactly when the endpoint answers
    with status 200 and the body decodes; it then returns the decoded body
    and neither logs nor touches the state. *)
Theorem get_api_answer_returns_iff (w : world) (ts : Z) (v : pyval)
    (st st' : state) :
  get_api_answer env w ts st = (Return v, st')
  ↔ requests_get w ENDPOINT (HEADERS env) (from_date w ts)
    = Responded 200 (Return v)
    ∧ st' = st.
Proof.
  split; [|intros [Hget ->]; by apply get_api_answer_ok].
  intros Hrun.
  destruct (requests_get w ENDPOINT (HEADERS env) (from_date w ts))
    as [code [v'|err]|err] eqn:Hget.
  - destruct (decide (code = 200)) as [->|Hcode].
    + rewrite (get_api_answer_ok _ _ _ _ _ Hget) in Hrun. by simplify_eq.
    + unfold get_api_answer in Hrun. cbv zeta in Hrun.
      unfold try_except in Hrun. rewrite Hget in Hrun.
      rewrite bool_decide_eq_false_2 in Hrun by done. discriminate.
  - destruct (decide (code = 200)) as [->|Hcode].
    + rewrite (get_api_answer_on_error w ts err st) in Hrun by auto.
      by repeat destruct (isinstance _ _).
    + unfold get_api_answer in Hrun. cbv zeta in Hrun.
      unfold try_except in Hrun. rewrite Hget in Hrun.
      rewrite bool_decide_eq_false_2 in Hrun by done. discriminate.
  - rewrite (get_api_answer_on_error w ts err st) in Hrun by auto.
    by repeat destruct (isinstance _ _).
Qed.

(** X2. On any status code other than 200 [get_api_answer] raises
    [HTTPError] with the text [Ресурс <ENDPOINT> недоступен: ] and logs that
    text once; the body of the answer is not looked at. *)
Theorem get_api_answer_rejects_status (w : world) (ts code : Z)
    (json : result pyval) (st : state) :
  requests_get w ENDPOINT (HEADERS env) (from_date w ts)
  = Responded code json →
  code ≠ 200 →
  get_api_answer env w ts st
  = (Raise (mkExc HTTPError unavailable_message),
     emit (Logged ERROR unavailable_message) st).
Proof.
  intros Hget Hcode. unfold get_api_answer. cbv zeta. unfold try_except.
  rewrite Hget, bool_decide_eq_false_2 by done. reflexivity.
Qed.

(** X3. An exception raised by [requests.get] or by [response.json()]
    leaves [get_api_answer] under another type: as an [HTTPError] when it
    is an [HTTPError] or a [ConnectionRefusedError], as a plain [Exception]
    when it is any other [Exception].  Its text follows the fixed prefix of
    the new message, which is logged once. *)
Theorem get_api_answer_wraps_errors (w : world) (ts : Z) (err : pyexc)
    (st : state) :
  requests_get w ENDPOINT (HEADERS env) (from_date w ts) = Failed err
  ∨ requests_get w ENDPOINT (HEADERS env) (from_date w ts)
    = Responded 200 (Raise err) →
  (isinstance err [HTTPError; ConnectionRefusedError] = true →
   get_api_answer env w ts st
   = (Raise (mkExc HTTPError (unavailable_message +:+ exc_str err)),
      emit (Logged ERROR (unavailable_message +:+ exc_str err)) st))
  ∧ (isinstance err [HTTPError; ConnectionRefusedError] = false →
     isinstance err [Exception] = true →
     get_api_answer env w ts st
     = (Raise (mkExc Exception
                 ("Ошибка при запросе к API: " +:+ exc_str err)),
        emit (Logged ERROR ("Ошибка при запросе к API: " +:+ exc_str err))
          st)).
Proof.
  intros Hget. rewrite (get_api_answer_on_error w ts err st Hget).
  split; [by intros ->|by intros -> ->].
Qed.

(** X4. An exception that leaves [get_api_answer] and that the loop
    catches has the type [HTTPError] or [Exception] itself, never a
    subclass and never [TelegramAPIException], and its text is the one
    line the call has logged. *)
Theorem get_api_answer_raises_reportable (w : world) (ts : Z) (e : pyexc)
    (st st' : state) :
  get_api_answer env w ts st = (Raise e, st') →
  isinstance e [Exception] = true →
  (exc_type e = HTTPError ∨ exc_type e = Exception)
  ∧ trace st' = trace st ++ [Logged ERROR (exc_str e)].
Proof.
  intros Hrun Hexc.
  assert (Herr : ∀ err,
    requests_get w ENDPOINT (HEADERS env) (from_date w ts) = Failed err
    ∨ requests_get w ENDPOINT (HEADERS env) (from_date w ts)
      = Responded 200 (Raise err) →
    (exc_type e = HTTPError ∨ exc_type e = Exception)
    ∧ trace st' = trace st ++ [Logged ERROR (exc_str e)]).
  { intros err Hget.
    rewrite (get_api_answer_on_error w ts err st Hget) in Hrun.
    destruct (isinstance err [HTTPError; ConnectionRefusedError]);
      [|destruct (isinstance err [Exception]) eqn:Herr];
      simplify_eq; auto. congruence. }
  destruct (requests_get w ENDPOINT (HEADERS env) (from_date w ts))
    as [code json|err] eqn:Hget; [|by eauto].
  destruct (decide (code = 200)) as [->|Hcode].
  - destruct json as [v|err]; [|by eauto].
    by rewrite (get_api_answer_ok _ _ _ _ _ Hget) in Hrun.
  - unfold get_api_answer in Hrun. cbv zeta in Hrun.
    unfold try_except in Hrun.
    rewrite Hget, bool_decide_eq_false_2 in Hrun by done.
    vm_compute in Hrun. simplify_eq. auto.
Qed.

(** ** [parse_status] *)

Lemma verdicts_keys (status verdict : string) :
  HOMEWORK_VERDICTS !! status = Some verdict →
  status ∈ ["approved"; "reviewing"; "rejected"].
Proof.
  unfold HOMEWORK_VERDICTS. intros Hlook.
  destruct (decide (status = "approved")) as [->|H1]; [set_solver|].
  destruct (decide (status = "reviewing")) as [->|H2]; [set_solver|].
  destruct (decide (status = "rejected")) as [->|H3]; [set_solver|].
  by rewrite !lookup_insert_ne, lookup_empty in Hlook.
Qed.

(** X5. On a record with a name, a status that is not a key of
    [HOMEWORK_VERDICTS] (a string outside the three known ones, a number,
    a boolean, [None], or no status at all) makes [parse_status] raise
    [UnknownStatusException]; the message ends in the status as [str]
    renders it and is logged once. *)
Theorem parse_status_unknown_status (d : gmap string pyval) (st : state) :
  let status := dict_get "status" (PDict d) in
  dict_get "homework_name" (PDict d) ≠ PNone →
  isinstance_list status = false →
  isinstance_dict status = false →
  (∀ s, status = PStr s → HOMEWORK_VERDICTS !! s = None) →
  parse_status py_repr (PDict d) st
  = (Raise (mkExc UnknownStatusException
              (unknown_status +:+ py_str py_repr status)),
     emit (Logged ERROR (unknown_status +:+ py_str py_repr status)) st).
Proof.
  intros status Hname Hlist Hdict Hkey.
  unfold parse_status, method_get. cbn [isinstance_dict].
  unfold mbind at 1, M_bind at 1, mret at 1, M_ret at 1.
  unfold mbind at 1, M_bind at 1, mret at 1, M_ret at 1.
  fold status.
  assert (Hin : in_verdicts status st = (Return false, st)).
  { destruct status as [| | | |s| |] eqn:Hs; try done.
    cbn [in_verdicts]. by rewrite (Hkey s eq_refl). }
  destruct (dict_get "homework_name" (PDict d)); try done;
    unfold mbind, M_bind; rewrite Hin; reflexivity.
Qed.

Lemma parse_status_return_inv (homework : pyval) (text : string)
    (st st' : state) :
  parse_status py_repr homework st = (Return text, st') →
  ∃ d name status verdict,
      homework = PDict d
      ∧ d !! "homework_name" = Some name ∧ name ≠ PNone
      ∧ d !! "status" = Some (PStr status)
      ∧ status ∈ ["approved"; "reviewing"; "rejected"]
      ∧ HOMEWORK_VERDICTS !! status = Some verdict
      ∧ text = status_changed +:+ dq +:+ py_str py_repr name +:+ dq
               +:+ ". " +:+ verdict
      ∧ st' = st.
Proof.
  destruct homework as [| | | | | |d]; try discriminate.
  unfold parse_status, method_get. cbn [isinstance_dict].
  unfold mbind at 1, M_bind at 1, mret at 1, M_ret at 1.
  unfold mbind at 1, M_bind at 1, mret at 1, M_ret at 1.
  destruct (dict_get "homework_name" (PDict d))
    as [|b|n|bits|text_name|items|entries] eqn:Hname; [discriminate|..].
  all: destruct (dict_get "status" (PDict d)) as [| | | |s| |] eqn:Hstatus;
    try discriminate.
  all: unfold mbind, M_bind; cbn [in_verdicts verdicts_get];
    destruct (HOMEWORK_VERDICTS !! s) as [verdict|] eqn:Hv;
    [|discriminate].
  all: intros Hrun; rewrite bool_decide_eq_true_2 in Hrun by eauto;
    unfold mret, M_ret in Hrun; cbn [negb] in Hrun; simplify_eq.
  all: cbn [dict_get] in Hname, Hstatus.
  all: destruct (d !! "homework_name") as [name|] eqn:Hn; [|discriminate].
  all: destruct (d !! "status") as [status|] eqn:Hs; [|discriminate].
  all: cbn in Hname, Hstatus; subst name status.
  all: eexists d, _, s, verdict; repeat split; try done.
  all: by eapply verdicts_keys.
Qed.

Lemma parse_status_known (d : gmap string pyval) (name : pyval)
    (status verdict : string) (st : state) :
  d !! "homework_name" = Some name → name ≠ PNone →
  d !! "status" = Some (PStr status) →
  HOMEWORK_VERDICTS !! status = Some verdict →
  parse_status py_repr (PDict d) st
  = (Return (status_changed +:+ dq +:+ py_str py_repr name +:+ dq
             +:+ ". " +:+ verdict), st).
Proof.
  intros Hname Hnone Hstatus Hv.
  unfold parse_status, method_get. cbn [isinstance_dict dict_get].
  rewrite Hname, Hstatus. cbn.
  unfold mbind at 1, M_bind at 1, mret at 1, M_ret at 1.
  unfold mbind at 1, M_bind at 1, mret at 1, M_ret at 1.
  destruct name; try done;
    unfold mbind, M_bind; cbn [in_verdicts verdicts_get];
    rewrite Hv; reflexivity.
Qed.

(** X6. [parse_status] returns exactly on a dictionary whose name is not
    [None] and whose status is one of the strings [approved], [reviewing],
    [rejected]; the text is then built from [str] of the name and the
    verdict of the status, and nothing is logged.  The name need not be a
    string. *)
Theorem parse_status_returns_iff (homework : pyval) (text : string)
    (st st' : state) :
  parse_status py_repr homework st = (Return text, st')
  ↔ ∃ d name status verdict,
      homework = PDict d
      ∧ d !! "homework_name" = Some name ∧ name ≠ PNone
      ∧ d !! "status" = Some (PStr status)
      ∧ status ∈ ["approved"; "reviewing"; "rejected"]
      ∧ HOMEWORK_VERDICTS !! status = Some verdict
      ∧ text = status_changed +:+ dq +:+ py_str py_repr name +:+ dq
               +:+ ". " +:+ verdict
      ∧ st' = st.
Proof.
  split; [apply parse_status_return_inv|].
  intros (d & name & status & verdict & -> & Hname & Hnone & Hstatus
          & _ & Hv & -> & ->).
  by apply parse_status_known with status.
Qed.

(** X7. An item that is not a dictionary has no method [get]:
    [parse_status] raises [AttributeError].  A status that is a list or a
    dictionary cannot be hashed: on a record with a name, [parse_status]
    raises [TypeError].  Neither is logged by [parse_status]. *)
Theorem parse_status_type_errors (homework : pyval) (st : state) :
  (isinstance_dict homework = false →
   parse_status py_repr homework st
   = (Raise (mkExc AttributeError
               ("'" +:+ type_name homework
                +:+ "' object has no attribute 'get'")), st))
  ∧ (isinstance_dict homework = true →
     dict_get "homework_name" homework ≠ PNone →
     isinstance_list (dict_get "status" homework)
     || isinstance_dict (dict_get "status" homework) = true →
     parse_status py_repr homework st
     = (Raise (mkExc TypeError
                 ("unhashable type: '"
                  +:+ type_name (dict_get "status" homework) +:+ "'")), st)).
Proof.
  split.
  - intros Hdict. unfold parse_status, method_get. rewrite Hdict. reflexivity.
  - intros Hdict Hname Hstatus. unfold parse_status, method_get.
    rewrite Hdict.
    unfold mbind at 1, M_bind at 1, mret at 1, M_ret at 1.
    unfold mbind at 1, M_bind at 1, mret at 1, M_ret at 1.
    destruct (dict_get "homework_name" homework); try done;
      destruct (dict_get "status" homework); try discriminate; reflexivity.
Qed.

(** ** [send_message] *)

(** X8. [send_message] returns exactly when the bot accepts the text, and
    only then has the text reached the chat; it calls the bot once and
    never a second time. *)
Theorem send_message_returns_iff (bot : Bot) (text : string) (st : state) :
  ((send_message env bot text st).1 = Return tt
   ↔ bot (TELEGRAM_CHAT_ID env) text = None)
  ∧ delivered (trace (send_message env bot text st).2)
    = delivered (trace st)
      ++ match bot (TELEGRAM_CHAT_ID env) text with
         | None => [text]
         | Some _ => []
         end
  ∧ sends (trace (send_message env bot text st).2)
    = sends (trace st) ++ [text].
Proof.
  split; [|split; [|apply send_message_effect]].
  - destruct (bot (TELEGRAM_CHAT_ID env) text) as [err|] eqn:Hbot.
    + destruct (isinstance err [Exception]) eqn:Hexc.
      * by rewrite (send_message_failed _ _ _ _ _ Hbot Hexc).
      * by rewrite (send_message_interrupted _ _ _ _ _ Hbot Hexc).
    + by rewrite (send_message_delivered _ _ _ _ Hbot).
  - destruct (bot (TELEGRAM_CHAT_ID env) text) as [err|] eqn:Hbot.
    + destruct (isinstance err [Exception]) eqn:Hexc.
      * rewrite (send_message_failed _ _ _ _ _ Hbot Hexc). cbn [snd].
        rewrite !delivered_emit. cbn. by rewrite !app_nil_r.
      * rewrite (send_message_interrupted _ _ _ _ _ Hbot Hexc). cbn [snd].
        rewrite !delivered_emit. cbn. by rewrite !app_nil_r.
    + rewrite (send_message_delivered _ _ _ _ Hbot). cbn [snd].
      rewrite !delivered_emit. cbn. by rewrite !app_nil_r.
Qed.

(** ** [check_tokens] and the start of [main] *)

Lemma truthy_str_iff (v : option string) :
  truthy_str v = true ↔ ∃ s, v = Some s ∧ s ≠ "".
Proof.
  destruct v as [s|]; cbn [truthy_str].
  - rewrite negb_true_iff, bool_decide_eq_false. split.
    + intros Hs. by exists s.
    + by intros (s' & [= <-] & Hs).
  - split; [done|]. by intros (s & Hs & _).
Qed.

Lemma tokens_configured :
  forallb truthy_str
    [PRACTICUM_TOKEN env; TELEGRAM_TOKEN env; TELEGRAM_CHAT_ID env] = true
  ↔ configured env.
Proof.
  cbn [forallb]. rewrite andb_true_r, !andb_true_iff, !truthy_str_iff.
  unfold configured. split.
  - intros ((p & Hp & Hp') & (t & Ht & Ht') & (c & Hc & Hc')).
    by exists p, t, c.
  - intros (p & t & c & Hp & Hp' & Ht & Ht' & Hc & Hc'). eauto 10.
Qed.

(** X9. [check_tokens] answers [True] exactly when the three environment
    variables are set and not empty, and then logs nothing; otherwise it
    answers [False] after one line at level critical.  It never raises. *)
Theorem check_tokens_spec (st : state) :
  (configured env → check_tokens env st = (Return true, st))
  ∧ (¬ configured env →
     check_tokens env st
     = (Return false,
        emit (Logged CRITICAL
                ("Отсутствует обязательная переменная окружения,"
                 +:+ "Программа принудительно остановлена.")) st)).
Proof.
  unfold check_tokens. split; intros Hconf.
  - apply tokens_configured in Hconf. by rewrite Hconf.
  - destruct (forallb _ _) eqn:Htokens; [|done].
    by apply tokens_configured in Htokens.
Qed.

(** X10. With a variable missing or empty [main] ends in [SystemExit]
    before the loop: whatever the worlds, the bot is not called, nothing is
    slept and the dictionary is as it was; two lines are logged at level
    critical.  With the three variables set, [main] builds the bot: an
    exception of [telegram.Bot] leaves [main] at once, with nothing
    logged, sent or slept; with the bot built, [main] is the loop started
    with [current_timestamp] and [cache_cleared] both at the clock
    reading. *)
Theorem main_checks_tokens_first (clock_start : Z) (worlds : list world)
    (st : state) :
  (¬ configured env →
   (main py_repr env telegram_Bot clock_start worlds st).1
   = Raise (mkExc SystemExit "Критическая ошибка, бот остановлен!")
   ∧ sends (trace (main py_repr env telegram_Bot clock_start worlds st).2)
     = sends (trace st)
   ∧ sleeps (trace (main py_repr env telegram_Bot clock_start worlds st).2)
     = sleeps (trace st)
   ∧ errors_occured (main py_repr env telegram_Bot clock_start worlds st).2
     = errors_occured st)
  ∧ (configured env →
     ∀ error, telegram_Bot (TELEGRAM_TOKEN env) = Some error →
     main py_repr env telegram_Bot clock_start worlds st = (Raise error, st))
  ∧ (configured env →
     telegram_Bot (TELEGRAM_TOKEN env) = None →
     main py_repr env telegram_Bot clock_start worlds st
     = poll py_repr env worlds
         {| current_timestamp := clock_start; cache_cleared := clock_start |}
         st).
Proof.
  split; [|split]; intros Hconf; unfold main, check_tokens, mbind, M_bind.
  - destruct (forallb _ _) eqn:Htokens;
      [by apply tokens_configured in Htokens|].
    cbn. unfold sends, sleeps. by rewrite !omap_app, !app_nil_r.
  - intros error Hbot. apply tokens_configured in Hconf.
    by rewrite Hconf, Hbot.
  - intros Hbot. apply tokens_configured in Hconf. by rewrite Hconf, Hbot.
Qed.

(** ** What the loop does in every iteration *)

Lemma sleeps_emit (ev : event) (st : state) :
  sleeps (trace (emit ev st)) = sleeps (trace st) ++ sleeps [ev].
Proof. unfold sleeps, emit. cbn [trace]. apply omap_app. Qed.

Lemma preserves_ret {A X} (obs : state → X) (a : A) : preserves obs (mret a).
Proof. by intros st. Qed.

Lemma preserves_raise {A X} (obs : state → X) (e : pyexc) :
  preserves obs (@raise A e).
Proof. by intros st. Qed.

Lemma preserves_bind {A B X} (obs : state → X) (m : M A) (f : A → M B) :
  preserves obs m → (∀ a, preserves obs (f a)) → preserves obs (m ≫= f).
Proof.
  intros Hm Hf st. unfold mbind, M_bind.
  specialize (Hm st). destruct (m st) as [[a|e] st1]; cbn [snd] in *.
  - by rewrite Hf.
  - done.
Qed.

Lemma preserves_try_except {A X} (obs : state → X) (body : M A)
    (clauses : list (list exc_class * (pyexc → M A))) :
  preserves obs body →
  Forall (λ cl, ∀ e, preserves obs (cl.2 e)) clauses →
  preserves obs (try_except body clauses).
Proof.
  intros Hbody Hcl st. unfold try_except.
  specialize (Hbody st). destruct (body st) as [[a|e] st1]; [done|].
  cbn [snd] in *.
  destruct (find _ clauses) as [cl|] eqn:Hfind; [|done].
  apply find_some in Hfind as [Hin _]. apply list_elem_of_In in Hin.
  rewrite Forall_forall in Hcl. by rewrite (Hcl cl Hin e st1).
Qed.

Lemma unslept_logged (lvl : level) (msg : string) :
  preserves (λ st, sleeps (trace st)) (tell (Logged lvl msg)).
Proof.
  intros st. unfold tell. cbn [snd]. rewrite sleeps_emit. cbn.
  by rewrite app_nil_r.
Qed.

Lemma unslept_bot_send (chat : option string) (text : string) (ok : bool) :
  preserves (λ st, sleeps (trace st)) (tell (BotSend chat text ok)).
Proof.
  intros st. unfold tell. cbn [snd]. rewrite sleeps_emit. cbn.
  by rewrite app_nil_r.
Qed.

Lemma unslept_set_errors (cache : gmap string Z) :
  preserves (λ st, sleeps (trace st)) (set_errors cache).
Proof. by intros st. Qed.

Lemma unslept_get_errors : preserves (λ st, sleeps (trace st)) get_errors.
Proof. by intros st. Qed.

Create HintDb unslept.
#[local] Hint Resolve preserves_ret preserves_raise preserves_bind
  preserves_try_except unslept_logged unslept_bot_send unslept_set_errors
  unslept_get_errors : unslept.

Lemma send_message_unslept (bot : Bot) (text : string) :
  preserves (λ st, sleeps (trace st)) (send_message env bot text).
Proof.
  unfold send_message, logger_debug, logger_exception.
  apply preserves_try_except.
  - destruct (bot _ _); auto with unslept.
  - repeat (constructor; [intros e; cbn [snd]; auto with unslept|]).
    constructor.
Qed.

Lemma get_api_answer_unslept (w : world) (ts : Z) :
  preserves (λ st, sleeps (trace st)) (get_api_answer env w ts).
Proof.
  unfold get_api_answer, logger_exception.
  apply preserves_try_except.
  - destruct (requests_get _ _ _ _) as [code [v|e]|e]; try case_bool_decide;
      auto with unslept.
  - repeat (constructor; [intros e; cbn [snd]; auto with unslept|]).
    constructor.
Qed.

Lemma check_response_unslept (response : pyval) :
  preserves (λ st, sleeps (trace st)) (check_response response).
Proof.
  unfold check_response, logger_debug, logger_exception.
  apply preserves_bind; [auto with unslept|]. intros _.
  destruct (_ && _); auto with unslept.
Qed.

Lemma parse_status_unslept (homework : pyval) :
  preserves (λ st, sleeps (trace st)) (parse_status py_repr homework).
Proof.
  unfold parse_status, method_get, logger_exception.
  apply preserves_bind; [destruct (isinstance_dict _); auto with unslept|].
  intros name.
  apply preserves_bind; [destruct (isinstance_dict _); auto with unslept|].
  intros status.
  destruct name; auto with unslept;
    (apply preserves_bind;
     [destruct status; cbn [in_verdicts]; auto with unslept|];
     intros known; destruct known; cbn [negb]; auto with unslept).
Qed.

Lemma handle_error_unslept (w : world) (bot : Bot) (e : pyexc) :
  preserves (λ st, sleeps (trace st)) (handle_error env w bot e).
Proof.
  unfold handle_error. case_bool_decide; [auto with unslept|].
  apply preserves_bind; [auto with unslept|]. intros cache.
  destruct (negb _); [|auto with unslept].
  apply preserves_bind; [auto with unslept|]. intros _.
  apply send_message_unslept.
Qed.

Lemma attempt_unslept (w : world) (vars : loop_vars) :
  preserves (λ st, sleeps (trace st)) (attempt py_repr env w vars).
Proof.
  unfold attempt, logger_debug.
  apply preserves_bind; [case_bool_decide; auto with unslept|]. intros _.
  apply preserves_bind; [apply get_api_answer_unslept|]. intros response.
  apply preserves_bind; [apply check_response_unslept|]. intros homeworks.
  apply preserves_bind; [|auto with unslept].
  destruct homeworks as [|homework rest]; [auto with unslept|].
  apply preserves_bind; [apply parse_status_unslept|]. intros message.
  apply send_message_unslept.
Qed.

(** The iteration before its [finally] clause. *)
Lemma guarded_attempt_unslept (w : world) (vars : loop_vars) :
  preserves (λ st, sleeps (trace st))
    (try_except (attempt py_repr env w vars)
       [([Exception],
         λ error, handle_error env w (bot_of w) error;; mret vars)]).
Proof.
  apply preserves_try_except; [apply attempt_unslept|].
  repeat (constructor; [intros e; cbn [snd]|]); [|constructor].
  apply preserves_bind; [apply handle_error_unslept|auto with unslept].
Qed.

(** X11. Every iteration sleeps [RETRY_PERIOD] seconds exactly once, at
    its end, whether its work succeeded, failed and was reported, or ended
    in an exception that leaves the loop. *)
Theorem iteration_sleeps_once (w : world) (vars : loop_vars) (st : state) :
  sleeps (trace (iteration py_repr env w vars st).2)
  = sleeps (trace st) ++ [RETRY_PERIOD]
  ∧ ∃ tr, trace (iteration py_repr env w vars st).2
          = tr ++ [Slept RETRY_PERIOD].
Proof.
  unfold iteration. cbv zeta. unfold try_finally.
  pose proof (guarded_attempt_unslept w vars st) as Hinner.
  destruct (try_except _ _ st) as [r st1]. cbn [snd] in Hinner.
  unfold time_sleep, tell. cbn [snd]. rewrite sleeps_emit, Hinner.
  split; [done|]. by exists (trace st1).
Qed.

(** X12. A run of the loop that has not ended in an exception has slept
    [RETRY_PERIOD] seconds once per iteration. *)
Theorem poll_sleeps_between_iterations (worlds : list world)
    (vars vars' : loop_vars) (st st' : state) :
  poll py_repr env worlds vars st = (Return vars', st') →
  sleeps (trace st')
  = sleeps (trace st) ++ replicate (length worlds) RETRY_PERIOD.
Proof.
  revert vars st. induction worlds as [|w worlds IH]; intros vars st Hrun.
  - cbn [poll] in Hrun. unfold mret, M_ret in Hrun. simplify_eq.
    cbn [length replicate]. by rewrite app_nil_r.
  - cbn [poll] in Hrun.
    apply bind_return_inv in Hrun as (vars1 & st1 & Hiter & Hrun).
    apply IH in Hrun. rewrite Hrun. cbn [length replicate].
    pose proof (guarded_attempt_unslept w vars st) as Hinner.
    unfold iteration in Hiter. cbv zeta in Hiter.
    unfold try_finally in Hiter.
    destruct (try_except _ _ st) as [r st0]. cbn [snd] in Hinner.
    unfold time_sleep, tell in Hiter. simplify_eq.
    rewrite sleeps_emit, Hinner. cbn. by rewrite <- app_assoc.
Qed.

(** ** The bot and the dictionary across an iteration *)

Lemma warning_text_inj (a b : string) :
  "[WARNING] " +:+ a = "[WARNING] " +:+ b → a = b.
Proof. intros H. vm_compute in H. by simplify_eq. Qed.

Lemma status_text_is_no_warning (rest m : string) :
  status_changed +:+ rest ≠ "[WARNING] " +:+ m.
Proof. vm_compute. discriminate. Qed.

(** How a call of [send_message] can end, seen from the loop. *)
Lemma send_message_outcome (bot : Bot) (text : string) (st : state) :
  match (send_message env bot text st).1 with
  | Return _ => True
  | Raise e =>
      exc_type e = TelegramAPIException ∨ isinstance e [Exception] = false
  end.
Proof.
  destruct (bot (TELEGRAM_CHAT_ID env) text) as [err|] eqn:Hbot.
  - destruct (isinstance err [Exception]) eqn:Hexc.
    + rewrite (send_message_failed _ _ _ _ _ Hbot Hexc). by left.
    + rewrite (send_message_interrupted _ _ _ _ _ Hbot Hexc). by right.
  - by rewrite (send_message_delivered _ _ _ _ Hbot).
Qed.

(** The [try] block writes the dictionary in its check only, and calls the
    bot at most once, as its last step and with a text of
    [parse_status]. *)
Lemma attempt_cases (w : world) (vars : loop_vars) (st st' : state)
    (r : result loop_vars) :
  attempt py_repr env w vars st = (r, st') →
  errors_occured st' = errors_occured (after_check w vars st)
  ∧ (sends (trace st') = sends (trace st)
     ∨ ∃ rest,
         sends (trace st') = sends (trace st) ++ [status_changed +:+ rest]
         ∧ match r with
           | Return _ => True
           | Raise e =>
               exc_type e = TelegramAPIException
               ∨ isinstance e [Exception] = false
           end).
Proof.
  unfold attempt. cbv zeta. intros Hrun.
  assert (Hstart : sends (trace (after_check w vars st)) = sends (trace st)).
  { unfold after_check. by case_bool_decide. }
  unfold mbind at 1, M_bind at 1 in Hrun. rewrite check_runs in Hrun.
  unfold mbind at 1, M_bind at 1 in Hrun.
  destruct (get_api_answer env w (current_timestamp vars)
              (after_check w vars st)) as [[response|e1] st1] eqn:Hget;
    apply (quiet_run _ _ _ _ (get_api_answer_quiet _ _ _)) in Hget
      as [Hs1 He1]; rewrite Hstart in Hs1; [|simplify_eq; auto].
  unfold mbind at 1, M_bind at 1 in Hrun.
  destruct (check_response response st1) as [[homeworks|e2] st2] eqn:Hchk;
    apply (quiet_run _ _ _ _ (check_response_quiet _)) in Hchk
      as [Hs2 He2]; rewrite Hs1 in Hs2; rewrite He1 in He2;
    [|simplify_eq; auto].
  unfold mbind at 1, M_bind at 1 in Hrun.
  destruct homeworks as [|homework others].
  { unfold logger_debug, tell, mret, M_ret in Hrun. simplify_eq.
    rewrite sends_emit, errors_emit. cbn. rewrite app_nil_r. auto. }
  unfold mbind at 1, M_bind at 1 in Hrun.
  destruct (parse_status py_repr homework st2) as [[message|e3] st3]
    eqn:Hparse.
  2:{ apply (quiet_run _ _ _ _ (parse_status_quiet _ _)) in Hparse
        as [Hs3 He3]. simplify_eq. split; [congruence|left; congruence]. }
  apply parse_status_return_inv in Hparse
    as (d & name & status & verdict & _ & _ & _ & _ & _ & _ & -> & ->).
  pose proof (send_message_effect env (bot_of w)
    (status_changed +:+ dq +:+ py_str py_repr name +:+ dq +:+ ". "
     +:+ verdict) st2) as [Hs4 He4].
  pose proof (send_message_outcome (bot_of w)
    (status_changed +:+ dq +:+ py_str py_repr name +:+ dq +:+ ". "
     +:+ verdict) st2) as Hout.
  destruct (send_message env (bot_of w) _ st2) as [[[]|e4] st4].
  - unfold mret, M_ret in Hrun. simplify_eq. cbn [fst snd] in *.
    split; [congruence|]. right. eexists. split; [|done].
    rewrite Hs4, Hs2. done.
  - simplify_eq. cbn [fst snd] in *.
    split; [congruence|]. right. eexists. split; [|done].
    rewrite Hs4, Hs2. done.
Qed.

(** The bot and the dictionary after a call of [handle_error]. *)
Lemma handle_error_cases (w : world) (bot : Bot) (e : pyexc) (st : state) :
  (handle_error env w bot e st = (Return tt, st)
   ∧ (exc_type e = TelegramAPIException
      ∨ truthy_int (errors_occured st !! exc_str e) = true))
  ∨ (exc_type e ≠ TelegramAPIException
     ∧ truthy_int (errors_occured st !! exc_str e) = false
     ∧ errors_occured (handle_error env w bot e st).2
       = <[exc_str e := clock_error w]> (errors_occured st)
     ∧ sends (trace (handle_error env w bot e st).2)
       = sends (trace st) ++ ["[WARNING] " +:+ exc_str e]).
Proof.
  destruct (decide (exc_type e = TelegramAPIException)) as [Hty|Hty].
  { left. split; [|by left]. unfold handle_error.
    by rewrite bool_decide_eq_true_2. }
  destruct (truthy_int (errors_occured st !! exc_str e)) eqn:Hseen.
  { left. split; [|by right]. by apply handle_error_seen. }
  right. rewrite (handle_error_unseen _ _ _ _ _ Hty Hseen).
  destruct (send_message_effect env bot ("[WARNING] " +:+ exc_str e)
    {| errors_occured := <[exc_str e := clock_error w]> (errors_occured st);
       trace := trace st |}) as [-> ->].
  done.
Qed.

(** What one iteration hands to the bot and does to the dictionary. *)
Lemma iteration_effect (w : world) (vars : loop_vars) (st : state) :
  ∃ texts,
    sends (trace (iteration py_repr env w vars st).2)
    = sends (trace st) ++ texts
    ∧ (texts = []
       ∨ (∃ rest, texts = [status_changed +:+ rest])
       ∨ ∃ m, texts = ["[WARNING] " +:+ m]
              ∧ truthy_int (errors_occured (after_check w vars st) !! m)
                = false)
    ∧ ∀ k v, errors_occured (after_check w vars st) !! k = Some v →
             v ≠ 0 →
             errors_occured (iteration py_repr env w vars st).2 !! k
             = Some v.
Proof.
  destruct (attempt py_repr env w vars st) as [r st1] eqn:Hatt.
  destruct (attempt_cases _ _ _ _ _ Hatt) as [Herr Hsends].
  assert (Hquiet : ∀ st2 : state,
    iteration py_repr env w vars st
    = ((iteration py_repr env w vars st).1, emit (Slept RETRY_PERIOD) st2) →
    errors_occured st2 = errors_occured st1 →
    sends (trace st2) = sends (trace st1) →
    ∃ texts,
      sends (trace (iteration py_repr env w vars st).2)
      = sends (trace st) ++ texts
      ∧ (texts = []
         ∨ (∃ rest, texts = [status_changed +:+ rest])
         ∨ ∃ m, texts = ["[WARNING] " +:+ m]
                ∧ truthy_int (errors_occured (after_check w vars st) !! m)
                  = false)
      ∧ ∀ k v, errors_occured (after_check w vars st) !! k = Some v →
               v ≠ 0 →
               errors_occured (iteration py_repr env w vars st).2 !! k
               = Some v).
  { intros st2 -> He Hs. cbn [snd].
    rewrite sends_emit, errors_emit, He, Hs, Herr. cbn. rewrite app_nil_r.
    destruct Hsends as [->|(rest & -> & _)].
    - exists []. rewrite app_nil_r. auto.
    - eexists. split; [done|]. split; [|auto]. right. left. eauto. }
  destruct r as [vars'|e].
  { apply (Hquiet st1); [|done..].
    by rewrite (iteration_after_return _ _ _ _ _ _ _ Hatt). }
  destruct (isinstance e [Exception]) eqn:Hexc.
  2:{ apply (Hquiet st1); [|done..].
      by rewrite (iteration_after_uncaught _ _ _ _ _ _ _ Hatt Hexc). }
  destruct (handle_error_cases w (bot_of w) e st1)
    as [[Hnoop _]|(Hty & Hnew & He2 & Hs2)].
  { apply (Hquiet st1); [|done..].
    rewrite (iteration_after_caught _ _ _ _ _ _ _ Hatt Hexc).
    by rewrite Hnoop. }
  destruct Hsends as [Hs1|(rest & _ & [Hbad|Hbad])]; [|done|congruence].
  rewrite (iteration_after_caught _ _ _ _ _ _ _ Hatt Hexc). cbn [snd].
  exists ["[WARNING] " +:+ exc_str e].
  rewrite sends_emit, errors_emit, He2, Hs2, Hs1, Herr. cbn.
  rewrite app_nil_r. rewrite Herr in Hnew.
  split; [done|]. split; [right; right; eauto|].
  intros k v Hk Hv. destruct (decide (k = exc_str e)) as [->|Hne].
  - rewrite Hk in Hnew. cbn in Hnew.
    by rewrite bool_decide_eq_false_2 in Hnew.
  - by rewrite lookup_insert_ne.
Qed.

Lemma handle_error_on_delivery_error (w : world) (bot : Bot) (text : string)
    (st : state) :
  handle_error env w bot (mkExc TelegramAPIException text) st
  = (Return tt, st).
Proof. reflexivity. Qed.

Lemma after_check_within (w : world) (vars : loop_vars) (st : state) :
  (clock_loop w - cache_cleared vars ≤ ERROR_CACHE_LIFETIME)%Z →
  after_check w vars st = st.
Proof.
  intros Hwithin. unfold after_check. rewrite bool_decide_eq_false_2; [done|].
  lia.
Qed.

Lemma check_response_rejects (response : pyval) (st : state) :
  ¬ valid_response response →
  check_response response st
  = (Raise (mkExc IncorrectResponseException
              "Ответ API не соответствует ожидаемому!"),
     emit (Logged ERROR "Ответ API не соответствует ожидаемому!")
       (emit (Logged DEBUG "Проверка ответа сервиса на корректность.") st)).
Proof.
  intros Hinvalid. unfold check_response.
  destruct (_ && _) eqn:Htest; [by apply check_response_test in Htest|].
  reflexivity.
Qed.

(** X13. An iteration calls the bot at most once: not at all, once with a
    text of [parse_status], or once with the warning for an error whose
    text was not in the dictionary after the check. *)
Theorem iteration_sends_at_most_once (w : world) (vars : loop_vars)
    (st : state) :
  ∃ texts,
    sends (trace (iteration py_repr env w vars st).2)
    = sends (trace st) ++ texts
    ∧ (length texts ≤ 1)%nat
    ∧ ∀ text, text ∈ texts →
        (∃ rest, text = status_changed +:+ rest)
        ∨ ∃ m, text = "[WARNING] " +:+ m
               ∧ truthy_int (errors_occured (after_check w vars st) !! m)
                 = false.
Proof.
  destruct (iteration_effect w vars st) as (texts & Hsends & Hkind & _).
  exists texts. split; [done|].
  destruct Hkind as [->|[(rest & ->)|(m & -> & Hm)]]; (split; [cbn; lia|]);
    intros text Hin.
  - by apply elem_of_nil in Hin.
  - apply list_elem_of_singleton in Hin as ->. left. by exists rest.
  - apply list_elem_of_singleton in Hin as ->. right. by exists m.
Qed.

(** X14. [handle_error] only ever adds to the dictionary: entries under
    other texts are untouched, an entry with a non-zero reading is neither
    removed nor overwritten, and the bot is called at most once, with the
    warning for this error. *)
Theorem handle_error_only_adds (w : world) (bot : Bot) (e : pyexc)
    (st : state) (k : string) :
  (k ≠ exc_str e →
   errors_occured (handle_error env w bot e st).2 !! k
   = errors_occured st !! k)
  ∧ (∀ v, errors_occured st !! k = Some v → v ≠ 0 →
          errors_occured (handle_error env w bot e st).2 !! k = Some v)
  ∧ (sends (trace (handle_error env w bot e st).2) = sends (trace st)
     ∨ sends (trace (handle_error env w bot e st).2)
       = sends (trace st) ++ ["[WARNING] " +:+ exc_str e]).
Proof.
  destruct (handle_error_cases w bot e st)
    as [[-> _]|(Hty & Hnew & -> & ->)]; [by auto|].
  split; [|split; [|by right]].
  - intros Hne. by rewrite lookup_insert_ne.
  - intros v Hk Hv. destruct (decide (k = exc_str e)) as [->|Hne].
    + rewrite Hk in Hnew. cbn in Hnew.
      by rewrite bool_decide_eq_false_2 in Hnew.
    + by rewrite lookup_insert_ne.
Qed.

(** X15. In an iteration whose check finds the clock at most
    [ERROR_CACHE_LIFETIME] past [cache_cleared], an entry of the dictionary
    with a non-zero reading stays as it is, and the warning for its text is
    not handed to the bot. *)
Theorem iteration_keeps_seen_errors (w : world) (vars : loop_vars)
    (st : state) (m : string) (v : Z) :
  (clock_loop w - cache_cleared vars ≤ ERROR_CACHE_LIFETIME)%Z →
  errors_occured st !! m = Some v →
  v ≠ 0 →
  errors_occured (iteration py_repr env w vars st).2 !! m = Some v
  ∧ ∃ texts,
      sends (trace (iteration py_repr env w vars st).2)
      = sends (trace st) ++ texts
      ∧ "[WARNING] " +:+ m ∉ texts.
Proof.
  intros Hwithin Hm Hv.
  destruct (iteration_effect w vars st) as (texts & Hsends & Hkind & Hkeep).
  rewrite (after_check_within _ _ _ Hwithin) in Hkind, Hkeep.
  split; [by apply Hkeep|]. exists texts. split; [done|].
  destruct Hkind as [->|[(rest & ->)|(m' & -> & Hm')]]; set_unfold.
  - tauto.
  - intros [H|[]]. symmetry in H. by apply status_text_is_no_warning in H.
  - intros [H|[]]. apply warning_text_inj in H. subst m'.
    rewrite Hm in Hm'. cbn in Hm'.
    by rewrite bool_decide_eq_false_2 in Hm'.
Qed.

(** X16. Over any number of iterations that all start at most
    [ERROR_CACHE_LIFETIME] past [cache_cleared], an error text recorded
    with a non-zero reading stays recorded and its warning is never handed
    to the bot again, whether the run goes on or ends in an exception. *)
Theorem poll_never_repeats_warning (worlds : list world) (vars : loop_vars)
    (st : state) (m : string) (v : Z) :
  Forall (λ w, (clock_loop w - cache_cleared vars ≤ ERROR_CACHE_LIFETIME)%Z)
    worlds →
  errors_occured st !! m = Some v →
  v ≠ 0 →
  errors_occured (poll py_repr env worlds vars st).2 !! m = Some v
  ∧ ∃ texts,
      sends (trace (poll py_repr env worlds vars st).2)
      = sends (trace st) ++ texts
      ∧ "[WARNING] " +:+ m ∉ texts.
Proof.
  revert vars st.
  induction worlds as [|w worlds IH]; intros vars st Hall Hm Hv.
  { cbn. split; [done|]. exists []. rewrite app_nil_r.
    split; [done|]. apply not_elem_of_nil. }
  apply Forall_cons in Hall as [Hw Hall].
  destruct (iteration_effect w vars st) as (texts & Hsends & Hkind & Hkeep).
  rewrite (after_check_within _ _ _ Hw) in Hkind, Hkeep.
  assert (Hfresh : "[WARNING] " +:+ m ∉ texts).
  { destruct Hkind as [->|[(rest & ->)|(m' & -> & Hm')]]; set_unfold.
    - tauto.
    - intros [H|[]]. symmetry in H. by apply status_text_is_no_warning in H.
    - intros [H|[]]. apply warning_text_inj in H. subst m'.
      rewrite Hm in Hm'. cbn in Hm'.
      by rewrite bool_decide_eq_false_2 in Hm'. }
  specialize (Hkeep m v Hm Hv).
  cbn [poll]. unfold mbind, M_bind.
  destruct (iteration py_repr env w vars st) as [[vars1|e] st1] eqn:Hiter;
    cbn [snd] in *.
  - assert (Hcc : cache_cleared vars1 = cache_cleared vars)
      by (by eapply iteration_keeps_cache_cleared).
    rewrite <- Hcc in Hall.
    destruct (IH vars1 st1 Hall Hkeep Hv) as (Hm1 & texts1 & Hs1 & Hfresh1).
    split; [done|]. exists (texts ++ texts1).
    rewrite Hs1, Hsends, <- app_assoc. split; [done|].
    by intros [Hin|Hin]%elem_of_app.
  - split; [done|]. by exists texts.
Qed.

(** X17. When the endpoint answers with a valid response whose first
    homework has a string name and a known status, and the bot accepts the
    text, the iteration delivers exactly that text, advances
    [current_timestamp] to the clock reading and records nothing; the
    other homeworks of the list are not looked at. *)
Theorem iteration_reports_first_homework (w : world) (vars : loop_vars)
    (st : state) (d r : gmap string pyval) (others : list pyval)
    (name status verdict : string) :
  let text := status_changed +:+ dq +:+ name +:+ dq +:+ ". " +:+ verdict in
  requests_get w ENDPOINT (HEADERS env) (from_date w (current_timestamp vars))
  = Responded 200 (Return (PDict d)) →
  d !! "homeworks" = Some (PList (PDict r :: others)) →
  is_Some (d !! "current_date") →
  r !! "homework_name" = Some (PStr name) →
  r !! "status" = Some (PStr status) →
  HOMEWORK_VERDICTS !! status = Some verdict →
  bot_of w (TELEGRAM_CHAT_ID env) text = None →
  (iteration py_repr env w vars st).1
  = Return {| current_timestamp := clock_done w;
              cache_cleared := cache_cleared vars |}
  ∧ delivered (trace (iteration py_repr env w vars st).2)
    = delivered (trace st) ++ [text]
  ∧ errors_occured (iteration py_repr env w vars st).2
    = errors_occured (after_check w vars st).
Proof.
  intros text Hget Hhw Hdate Hname Hstatus Hv Hbot.
  erewrite iteration_after_return.
  2:{ unfold attempt. cbv zeta.
      unfold mbind at 1, M_bind at 1. rewrite check_runs.
      unfold mbind at 1, M_bind at 1.
      rewrite (get_api_answer_ok _ _ _ _ _ Hget).
      unfold mbind at 1, M_bind at 1.
      rewrite (check_response_accepts _ _ _ Hhw Hdate).
      unfold mbind at 1, M_bind at 1. unfold mbind at 1, M_bind at 1.
      rewrite (parse_status_known r (PStr name) status verdict)
        by done.
      cbn [py_str]. fold text.
      rewrite (send_message_delivered _ _ _ _ Hbot). reflexivity. }
  cbn [fst snd]. split; [done|].
  rewrite !delivered_emit, !errors_emit. cbn.
  rewrite !app_nil_r. split; [|done].
  unfold after_check. by case_bool_decide.
Qed.

(** X18. With the same answer, when the bot fails with an [Exception] the
    iteration ends normally with [current_timestamp] unchanged, so the
    next request asks from the same moment again; nothing is delivered and
    nothing is recorded. *)
Theorem undelivered_status_keeps_cursor (w : world) (vars : loop_vars)
    (st : state) (d r : gmap string pyval) (others : list pyval)
    (name status verdict : string) (err : pyexc) :
  let text := status_changed +:+ dq +:+ name +:+ dq +:+ ". " +:+ verdict in
  requests_get w ENDPOINT (HEADERS env) (from_date w (current_timestamp vars))
  = Responded 200 (Return (PDict d)) →
  d !! "homeworks" = Some (PList (PDict r :: others)) →
  is_Some (d !! "current_date") →
  r !! "homework_name" = Some (PStr name) →
  r !! "status" = Some (PStr status) →
  HOMEWORK_VERDICTS !! status = Some verdict →
  bot_of w (TELEGRAM_CHAT_ID env) text = Some err →
  isinstance err [Exception] = true →
  (iteration py_repr env w vars st).1 = Return vars
  ∧ delivered (trace (iteration py_repr env w vars st).2)
    = delivered (trace st)
  ∧ sends (trace (iteration py_repr env w vars st).2)
    = sends (trace st) ++ [text]
  ∧ errors_occured (iteration py_repr env w vars st).2
    = errors_occured (after_check w vars st).
Proof.
  intros text Hget Hhw Hdate Hname Hstatus Hv Hbot Hexc.
  erewrite iteration_after_caught.
  2:{ unfold attempt. cbv zeta.
      unfold mbind at 1, M_bind at 1. rewrite check_runs.
      unfold mbind at 1, M_bind at 1.
      rewrite (get_api_answer_ok _ _ _ _ _ Hget).
      unfold mbind at 1, M_bind at 1.
      rewrite (check_response_accepts _ _ _ Hhw Hdate).
      unfold mbind at 1, M_bind at 1. unfold mbind at 1, M_bind at 1.
      rewrite (parse_status_known r (PStr name) status verdict)
        by done.
      cbn [py_str]. fold text.
      rewrite (send_message_failed _ _ _ _ _ Hbot Hexc). reflexivity. }
  2:{ reflexivity. }
  rewrite handle_error_on_delivery_error. cbn [fst snd].
  rewrite !delivered_emit, !sends_emit, !errors_emit. cbn.
  rewrite !app_nil_r. repeat split.
  all: unfold after_check; by case_bool_decide.
Qed.

(** X19. When the endpoint answers 200 with a body that is not a valid
    response, [current_timestamp] is never advanced, and what else happens
    depends on the dictionary after the check and on the bot.  With the
    text of [IncorrectResponseException] in the dictionary, the iteration
    ends normally without calling the bot.  With the text not there and
    the bot accepting, the iteration ends normally, the warning is
    delivered and the text recorded with the clock reading.  With the text
    not there and the bot failing with an [Exception], the text is
    recorded, nothing is delivered and the iteration ends in
    [TelegramAPIException]. *)
Theorem invalid_response_is_reported (w : world) (vars : loop_vars)
    (st : state) (response : pyval) :
  let message := "Ответ API не соответствует ожидаемому!" in
  let seen := truthy_int (errors_occured (after_check w vars st) !! message) in
  let after := iteration py_repr env w vars st in
  requests_get w ENDPOINT (HEADERS env) (from_date w (current_timestamp vars))
  = Responded 200 (Return response) →
  ¬ valid_response response →
  match after.1 with Return vars' => vars' = vars | Raise _ => True end
  ∧ (seen = true →
     after.1 = Return vars
     ∧ sends (trace after.2) = sends (trace st)
     ∧ errors_occured after.2 = errors_occured (after_check w vars st))
  ∧ (seen = false →
     bot_of w (TELEGRAM_CHAT_ID env) ("[WARNING] " +:+ message) = None →
     after.1 = Return vars
     ∧ delivered (trace after.2)
       = delivered (trace st) ++ ["[WARNING] " +:+ message]
     ∧ errors_occured after.2
       = <[message := clock_error w]>
           (errors_occured (after_check w vars st)))
  ∧ (seen = false →
     ∀ err,
       bot_of w (TELEGRAM_CHAT_ID env) ("[WARNING] " +:+ message)
       = Some err →
       isinstance err [Exception] = true →
       after.1
       = Raise (mkExc TelegramAPIException
                  ("Ошибка при отправке сообщения: " +:+ exc_str err))
       ∧ delivered (trace after.2) = delivered (trace st)
       ∧ errors_occured after.2
         = <[message := clock_error w]>
             (errors_occured (after_check w vars st))).
Proof.
  intros message seen after Hget Hinvalid.
  assert (Hatt : attempt py_repr env w vars st
    = (Raise (mkExc IncorrectResponseException message),
       emit (Logged ERROR message)
         (emit (Logged DEBUG "Проверка ответа сервиса на корректность.")
            (after_check w vars st)))).
  { unfold attempt. cbv zeta.
    unfold mbind at 1, M_bind at 1. rewrite check_runs.
    unfold mbind at 1, M_bind at 1.
    rewrite (get_api_answer_ok _ _ _ _ _ Hget).
    unfold mbind at 1, M_bind at 1.
    rewrite (check_response_rejects _ _ Hinvalid). reflexivity. }
  assert (Hstart : sends (trace (after_check w vars st)) = sends (trace st)
                   ∧ delivered (trace (after_check w vars st))
                     = delivered (trace st)).
  { unfold after_check. by case_bool_decide. }
  destruct Hstart as [Hsends Hdelivered].
  unfold after. rewrite (iteration_after_caught _ _ _ _ _ _ _ Hatt eq_refl).
  cbn [fst snd].
  refine (conj _ (conj _ (conj _ _))).
  - by destruct (handle_error _ _ _ _ _).1.
  - intros Hseen. rewrite handle_error_seen; [|done|by rewrite !errors_emit].
    cbn [fst snd]. rewrite !sends_emit, !errors_emit. cbn.
    by rewrite !app_nil_r.
  - intros Hseen Hbot.
    rewrite handle_error_unseen; [|done|by rewrite !errors_emit].
    cbn [exc_str]. rewrite (send_message_delivered _ _ _ _ Hbot).
    cbn [fst snd]. rewrite !delivered_emit, !errors_emit. cbn.
    rewrite !app_nil_r. split; [reflexivity|]. split; [|reflexivity].
    unfold delivered in *. rewrite !omap_app. cbn. rewrite !app_nil_r.
    by rewrite Hdelivered.
  - intros Hseen err Hbot Hexc.
    rewrite handle_error_unseen; [|done|by rewrite !errors_emit].
    cbn [exc_str]. rewrite (send_message_failed _ _ _ _ _ Hbot Hexc).
    cbn [fst snd]. rewrite !delivered_emit, !errors_emit. cbn.
    rewrite !app_nil_r. split; [reflexivity|]. split; [|reflexivity].
    unfold delivered in *. rewrite !omap_app. cbn. rewrite !app_nil_r.
    by rewrite Hdelivered.
Qed.

End Coverage.

(** ** The rest of the module on concrete runs *)

Lemma get_api_answer_returns_iff_witness :
  get_api_answer sample_env (idle 1600) 1000 fresh
  = (Return (PDict no_news), fresh).
Proof.
  by apply (get_api_answer_returns_iff sample_env (idle 1600) 1000
              (PDict no_news) fresh fresh).
Defined.

Lemma get_api_answer_rejects_status_witness :
  get_api_answer sample_env (unavailable 1600) 1000 fresh
  = (Raise (mkExc HTTPError unavailable_message),
     emit (Logged ERROR unavailable_message) fresh).
Proof.
  apply (get_api_answer_rejects_status sample_env (unavailable 1600) 1000 503
           (Return PNone) fresh).
  - reflexivity.
  - lia.
Defined.

Lemma get_api_answer_wraps_errors_witness :
  get_api_answer sample_env (refusing 1600) 1000 fresh
  = (Raise (mkExc HTTPError (unavailable_message +:+ exc_str refused)),
     emit (Logged ERROR (unavailable_message +:+ exc_str refused)) fresh)
  ∧ get_api_answer sample_env (unreachable 1600) 1000 fresh
    = (Raise (mkExc Exception
                ("Ошибка при запросе к API: "
                 +:+ exc_str connection_error)),
       emit (Logged ERROR ("Ошибка при запросе к API: "
                           +:+ exc_str connection_error)) fresh).
Proof.
  split.
  - apply (get_api_answer_wraps_errors sample_env (refusing 1600) 1000
             refused fresh); [by left | by vm_compute].
  - apply (get_api_answer_wraps_errors sample_env (unreachable 1600) 1000
             connection_error fresh); [by left | by vm_compute..].
Defined.

Lemma get_api_answer_raises_reportable_witness :
  (exc_type (mkExc Exception
               ("Ошибка при запросе к API: " +:+ exc_str connection_error))
   = HTTPError
   ∨ exc_type (mkExc Exception
                 ("Ошибка при запросе к API: "
                  +:+ exc_str connection_error))
     = Exception)
  ∧ trace (emit (Logged ERROR ("Ошибка при запросе к API: "
                                +:+ exc_str connection_error)) fresh)
    = trace fresh
      ++ [Logged ERROR ("Ошибка при запросе к API: "
                        +:+ exc_str connection_error)].
Proof.
  apply (get_api_answer_raises_reportable sample_env (unreachable 1600) 1000
           (mkExc Exception
              ("Ошибка при запросе к API: " +:+ exc_str connection_error))
           fresh
           (emit (Logged ERROR ("Ошибка при запросе к API: "
                                +:+ exc_str connection_error)) fresh)).
  - reflexivity.
  - by vm_compute.
Defined.

Lemma parse_status_unknown_status_witness :
  parse_status repr_unused (PDict burnt) fresh
  = (Raise (mkExc UnknownStatusException (unknown_status +:+ "burnt")),
     emit (Logged ERROR (unknown_status +:+ "burnt")) fresh).
Proof.
  apply (parse_status_unknown_status repr_unused burnt fresh).
  - by vm_compute.
  - reflexivity.
  - reflexivity.
  - intros s Hs. vm_compute in Hs. by simplify_eq.
Defined.

Lemma parse_status_returns_iff_witness :
  ∃ d name status verdict,
    homework_proj1 = PDict d
    ∧ d !! "homework_name" = Some name ∧ name ≠ PNone
    ∧ d !! "status" = Some (PStr status)
    ∧ status ∈ ["approved"; "reviewing"; "rejected"]
    ∧ HOMEWORK_VERDICTS !! status = Some verdict
    ∧ status_changed +:+ dq +:+ "Proj1" +:+ dq
      +:+ ". Работа проверена: ревьюеру всё понравилось. Ура!"
      = status_changed +:+ dq +:+ py_str repr_unused name +:+ dq
        +:+ ". " +:+ verdict
    ∧ fresh = fresh.
Proof.
  by apply (parse_status_returns_iff repr_unused homework_proj1 _ fresh
              fresh).
Defined.

Lemma parse_status_type_errors_witness :
  parse_status repr_unused (PInt 3) fresh
  = (Raise (mkExc AttributeError "'int' object has no attribute 'get'"),
     fresh)
  ∧ parse_status repr_unused (PDict list_status) fresh
    = (Raise (mkExc TypeError "unhashable type: 'list'"), fresh).
Proof.
  split.
  - by apply (proj1 (parse_status_type_errors repr_unused (PInt 3) fresh)).
  - apply (proj2 (parse_status_type_errors repr_unused (PDict list_status)
                    fresh)).
    + reflexivity.
    + by vm_compute.
    + reflexivity.
Defined.

Lemma check_tokens_spec_witness :
  check_tokens sample_env fresh = (Return true, fresh)
  ∧ (check_tokens env_without_chat fresh).1 = Return false
  ∧ (check_tokens env_empty_token fresh).1 = Return false.
Proof.
  split; [|split].
  - apply (proj1 (check_tokens_spec sample_env fresh)).
    by exists "practicum-token", "123456:telegram-token", "42".
  - rewrite (proj2 (check_tokens_spec env_without_chat fresh)); [done|].
    intros (p & t & c & _ & _ & _ & _ & Hc & _). cbn in Hc. discriminate.
  - rewrite (proj2 (check_tokens_spec env_empty_token fresh)); [done|].
    intros (p & t & c & Hp & Hp' & _). cbn in Hp. by simplify_eq.
Defined.

Lemma main_checks_tokens_first_witness :
  ((main repr_unused env_without_chat bot_built 1000 [approved_news 1600]
      fresh).1
   = Raise (mkExc SystemExit "Критическая ошибка, бот остановлен!")
   ∧ sends (trace (main repr_unused env_without_chat bot_built 1000
                     [approved_news 1600] fresh).2) = [])
  ∧ main repr_unused sample_env token_refused 1000 [approved_news 1600] fresh
    = (Raise invalid_token, fresh)
  ∧ main repr_unused sample_env bot_built 1000 [approved_news 1600] fresh
    = poll repr_unused sample_env [approved_news 1600]
        {| current_timestamp := 1000; cache_cleared := 1000 |} fresh.
Proof.
  assert (Hsample : configured sample_env)
    by (by exists "practicum-token", "123456:telegram-token", "42").
  refine (conj _ (conj _ _)).
  - destruct (proj1 (main_checks_tokens_first repr_unused env_without_chat
                       bot_built 1000 [approved_news 1600] fresh))
      as (Hres & Hsends & _).
    + intros (p & t & c & _ & _ & _ & _ & Hc & _). cbn in Hc. discriminate.
    + by split.
  - by apply (proj1 (proj2 (main_checks_tokens_first repr_unused sample_env
                              token_refused 1000 [approved_news 1600]
                              fresh))).
  - by apply (proj2 (proj2 (main_checks_tokens_first repr_unused sample_env
                              bot_built 1000 [approved_news 1600] fresh))).
Defined.

Lemma poll_sleeps_between_iterations_witness :
  sleeps (trace (poll repr_unused sample_env
                   [idle 1600; unavailable 2200; approved_news 2800]
                   {| current_timestamp := 1000; cache_cleared := 1000 |}
                   fresh).2)
  = [RETRY_PERIOD; RETRY_PERIOD; RETRY_PERIOD].
Proof.
  eapply (poll_sleeps_between_iterations repr_unused sample_env
            [idle 1600; unavailable 2200; approved_news 2800]
            {| current_timestamp := 1000; cache_cleared := 1000 |} _ fresh).
  vm_compute. reflexivity.
Defined.

Lemma handle_error_only_adds_witness :
  let e := mkExc Exception "Ошибка при запросе к API: timed out" in
  let after :=
    (handle_error sample_env (unreachable 1600) (λ _ _, None) e reported).2 in
  errors_occured after !! unavailable_message = Some 1200.
Proof.
  intros e after.
  apply (proj1 (proj2 (handle_error_only_adds sample_env (unreachable 1600)
                         (λ _ _, None) e reported unavailable_message))).
  - reflexivity.
  - lia.
Defined.

Lemma iteration_keeps_seen_errors_witness :
  let after :=
    (iteration repr_unused sample_env (unavailable 1800)
       {| current_timestamp := 1000; cache_cleared := 1000 |} reported).2 in
  errors_occured after !! unavailable_message = Some 1200
  ∧ ∃ texts,
      sends (trace after) = sends (trace reported) ++ texts
      ∧ "[WARNING] " +:+ unavailable_message ∉ texts.
Proof.
  apply (iteration_keeps_seen_errors repr_unused sample_env (unavailable 1800)
           {| current_timestamp := 1000; cache_cleared := 1000 |} reported
           unavailable_message 1200).
  - by vm_compute.
  - reflexivity.
  - lia.
Defined.

Lemma poll_never_repeats_warning_witness :
  let after :=
    (poll repr_unused sample_env
       [unavailable 1800; unavailable 2400; unavailable 3000]
       {| current_timestamp := 1000; cache_cleared := 1000 |} reported).2 in
  errors_occured after !! unavailable_message = Some 1200
  ∧ ∃ texts,
      sends (trace after) = sends (trace reported) ++ texts
      ∧ "[WARNING] " +:+ unavailable_message ∉ texts.
Proof.
  apply (poll_never_repeats_warning repr_unused sample_env
           [unavailable 1800; unavailable 2400; unavailable 3000]
           {| current_timestamp := 1000; cache_cleared := 1000 |} reported
           unavailable_message 1200).
  - repeat constructor; by vm_compute.
  - reflexivity.
  - lia.
Defined.

Lemma iteration_reports_first_homework_witness :
  let vars := {| current_timestamp := 1000; cache_cleared := 1000 |} in
  let text :=
    status_changed +:+ dq +:+ "Proj1" +:+ dq +:+ ". "
    +:+ "Работа проверена: ревьюеру всё понравилось. Ура!" in
  (iteration repr_unused sample_env (approved_news 1600) vars fresh).1
  = Return {| current_timestamp := 1600; cache_cleared := 1000 |}
  ∧ delivered
      (trace (iteration repr_unused sample_env (approved_news 1600) vars
                fresh).2)
    = delivered (trace fresh) ++ [text]
  ∧ errors_occured
      (iteration repr_unused sample_env (approved_news 1600) vars fresh).2
    = errors_occured (after_check (approved_news 1600) vars fresh).
Proof.
  intros vars text.
  eapply (iteration_reports_first_homework repr_unused sample_env
            (approved_news 1600) vars fresh news _ [PInt 3] "Proj1"
            "approved").
  - reflexivity.
  - reflexivity.
  - vm_compute. eauto.
  - reflexivity.
  - reflexivity.
  - reflexivity.
  - reflexivity.
Defined.

Lemma undelivered_status_keeps_cursor_witness :
  let vars := {| current_timestamp := 1000; cache_cleared := 1000 |} in
  (iteration repr_unused sample_env (undeliverable 1600) vars fresh).1
  = Return vars
  ∧ delivered
      (trace (iteration repr_unused sample_env (undeliverable 1600) vars
                fresh).2)
    = delivered (trace fresh).
Proof.
  intros vars.
  destruct (undelivered_status_keeps_cursor repr_unused sample_env
              (undeliverable 1600) vars fresh
              (<["homeworks" := PList [homework_proj1]]>
               (<["current_date" := PInt 1000]> ∅))
              (<["homework_name" := PStr "Proj1"]>
               (<["status" := PStr "approved"]> ∅))
              [] "Proj1" "approved"
              "Работа проверена: ревьюеру всё понравилось. Ура!"
              (mkExc (OtherClass "NetworkError"
                        (OtherClass "TelegramError" Exception))
                     "timed out"))
    as (Hres & Hdel & _).
  - reflexivity.
  - reflexivity.
  - vm_compute. eauto.
  - reflexivity.
  - reflexivity.
  - reflexivity.
  - reflexivity.
  - by vm_compute.
  - by split.
Defined.

Lemma invalid_response_is_reported_witness :
  let vars := {| current_timestamp := 1000; cache_cleared := 1000 |} in
  let message := "Ответ API не соответствует ожидаемому!" in
  let accepted :=
    iteration repr_unused sample_env (empty_answer 1600) vars fresh in
  let failed :=
    iteration repr_unused sample_env (empty_answer_outage 1600) vars fresh in
  (accepted.1 = Return vars
   ∧ delivered (trace accepted.2) = ["[WARNING] " +:+ message]
   ∧ errors_occured accepted.2 = <[message := 1600]> ∅)
  ∧ (failed.1
     = Raise (mkExc TelegramAPIException
                "Ошибка при отправке сообщения: timed out")
     ∧ delivered (trace failed.2) = []
     ∧ errors_occured failed.2 = <[message := 1600]> ∅).
Proof.
  intros vars message accepted failed. split.
  - apply (proj1 (proj2 (proj2 (invalid_response_is_reported repr_unused
             sample_env (empty_answer 1600) vars fresh (PDict ∅) eq_refl
             (λ H, match H with
                   | ex_intro _ d (ex_intro _ items (conj Hd (conj Hne _))) =>
                       Hne (eq_sym (f_equal
                              (λ v, match v with PDict m => m | _ => ∅ end)
                              Hd))
                   end))))); reflexivity.
  - exact (proj2 (proj2 (proj2 (invalid_response_is_reported repr_unused
              sample_env (empty_answer_outage 1600) vars fresh (PDict ∅)
              eq_refl
              (λ H, match H with
                    | ex_intro _ d (ex_intro _ items (conj Hd (conj Hne _))) =>
                        Hne (eq_sym (f_equal
                               (λ v, match v with PDict m => m | _ => ∅ end)
                               Hd))
                    end))))
              eq_refl
              (mkExc (OtherClass "NetworkError"
                        (OtherClass "TelegramError" Exception))
                     "timed out")
              eq_refl eq_refl).
Defined.
